(** * zerotwobot: chat_status.py — permission guards and the admin cache

    A shallow embedding of [zerotwobot/modules/helper_funcs/chat_status.py].
    The coroutines of the module talk to the Telegram platform, read and
    write the module-level [ADMIN_CACHE], send replies and finally may call
    the handler they guard.  They are embedded in a state-and-exception
    monad over a [World] that carries the cache, the clock and the trace of
    the effects performed so far. *)

From Stdlib Require Import ZArith List String Bool Lia.
Import ListNotations.
Local Open Scope string_scope.
Local Open Scope Z_scope.
Local Open Scope list_scope.

(** ** Telegram data *)

Definition UserId := Z.
Definition ChatId := Z.

(** [telegram.constants.ChatType] *)
Inductive ChatType := PRIVATE | GROUP | SUPERGROUP | CHANNEL.

(** [telegram.constants.ChatMemberStatus] *)
Inductive ChatMemberStatus :=
  ADMINISTRATOR | OWNER | BANNED | LEFT | MEMBER | RESTRICTED.

Definition ChatMemberStatus_eqb (a b : ChatMemberStatus) : bool :=
  match a, b with
  | ADMINISTRATOR, ADMINISTRATOR | OWNER, OWNER | BANNED, BANNED
  | LEFT, LEFT | MEMBER, MEMBER | RESTRICTED, RESTRICTED => true
  | _, _ => false
  end.

(** The capability flags of a [ChatMemberAdministrator]; a flag the
    platform left out ([None]) is falsy and is modelled as [false].  The
    attributes live in a name space of their own: the module has a guard
    called [can_manage_topics] too. *)
Module Rights.
Record AdminRights := mkRights {
  can_manage_chat : bool;
  can_delete_messages : bool;
  can_manage_video_chats : bool;
  can_restrict_members : bool;
  can_promote_members : bool;
  can_change_info : bool;
  can_invite_users : bool;
  can_post_messages : bool;
  can_edit_messages : bool;
  can_pin_messages : bool;
  can_manage_topics : bool
}.
End Rights.

(** The capability names a guard can be asked to look up with [getattr]. *)
Inductive Permission :=
  | P_can_manage_chat | P_can_delete_messages | P_can_manage_video_chats
  | P_can_restrict_members | P_can_promote_members | P_can_change_info
  | P_can_invite_users | P_can_post_messages | P_can_edit_messages
  | P_can_pin_messages | P_can_manage_topics.

Definition permission_name (p : Permission) : string :=
  match p with
  | P_can_manage_chat => "can_manage_chat"
  | P_can_delete_messages => "can_delete_messages"
  | P_can_manage_video_chats => "can_manage_video_chats"
  | P_can_restrict_members => "can_restrict_members"
  | P_can_promote_members => "can_promote_members"
  | P_can_change_info => "can_change_info"
  | P_can_invite_users => "can_invite_users"
  | P_can_post_messages => "can_post_messages"
  | P_can_edit_messages => "can_edit_messages"
  | P_can_pin_messages => "can_pin_messages"
  | P_can_manage_topics => "can_manage_topics"
  end.

Definition getattr (r : Rights.AdminRights) (p : Permission) : bool :=
  match p with
  | P_can_manage_chat => Rights.can_manage_chat r
  | P_can_delete_messages => Rights.can_delete_messages r
  | P_can_manage_video_chats => Rights.can_manage_video_chats r
  | P_can_restrict_members => Rights.can_restrict_members r
  | P_can_promote_members => Rights.can_promote_members r
  | P_can_change_info => Rights.can_change_info r
  | P_can_invite_users => Rights.can_invite_users r
  | P_can_post_messages => Rights.can_post_messages r
  | P_can_edit_messages => Rights.can_edit_messages r
  | P_can_pin_messages => Rights.can_pin_messages r
  | P_can_manage_topics => Rights.can_manage_topics r
  end.

(** [telegram.ChatMember] and its subclasses; every record carries the id
    of its user ([x.user.id]). *)
Inductive ChatMember :=
  | ChatMemberOwner (uid : UserId)
  | ChatMemberAdministrator (uid : UserId) (rights : Rights.AdminRights)
  | ChatMemberMember (uid : UserId)
  | ChatMemberRestricted (uid : UserId)
  | ChatMemberLeft (uid : UserId)
  | ChatMemberBanned (uid : UserId).

Definition member_user_id (m : ChatMember) : UserId :=
  match m with
  | ChatMemberOwner u | ChatMemberAdministrator u _ | ChatMemberMember u
  | ChatMemberRestricted u | ChatMemberLeft u | ChatMemberBanned u => u
  end.

Definition status (m : ChatMember) : ChatMemberStatus :=
  match m with
  | ChatMemberOwner _ => OWNER
  | ChatMemberAdministrator _ _ => ADMINISTRATOR
  | ChatMemberMember _ => MEMBER
  | ChatMemberRestricted _ => RESTRICTED
  | ChatMemberLeft _ => LEFT
  | ChatMemberBanned _ => BANNED
  end.

Record Chat := mkChat {
  chat_id : ChatId;
  chat_type : ChatType;
  chat_title : string
}.

Record Message := mkMessage {
  message_chat : Chat;
  message_text : string
}.

(** [update.effective_user] is [None] for updates without a sender. *)
Record Update := mkUpdate {
  effective_chat : Chat;
  effective_user : option UserId;
  effective_message : Message
}.

Definition is_private (c : Chat) : bool :=
  match chat_type c with PRIVATE => true | _ => false end.

(** ** Python membership tests *)

(** [x in l] for a list (or tuple) of integers. *)
Definition contains (x : Z) (l : list Z) : bool := existsb (Z.eqb x) l.

(** [s in l] for a list (or tuple) of statuses. *)
Definition status_in (s : ChatMemberStatus) (l : list ChatMemberStatus) : bool :=
  existsb (ChatMemberStatus_eqb s) l.

(** The two kinds of value that meet in [user.id in [DRAGONS, DEV_USERS]]:
    an integer, and a collection of integers.  Python's [in] on a list
    compares the candidate with each element by [==], and an integer is
    never equal to a collection. *)
Inductive PyObj :=
  | PyInt (n : Z)
  | PyColl (l : list Z).

Fixpoint list_Z_eqb (a b : list Z) : bool :=
  match a, b with
  | [], [] => true
  | x :: a', y :: b' => (x =? y) && list_Z_eqb a' b'
  | _, _ => false
  end.

Definition py_eq (a b : PyObj) : bool :=
  match a, b with
  | PyInt x, PyInt y => x =? y
  | PyColl l1, PyColl l2 => list_Z_eqb l1 l2
  | _, _ => false
  end.

Definition py_in (x : PyObj) (l : list PyObj) : bool := existsb (py_eq x) l.

(** ** The admin cache *)

(** One entry of the cache: the chat, the clock value at which the entry
    stops being live, and the administrator ids stored for the chat. *)
Record Entry := mkEntry {
  entry_key : ChatId;
  entry_expires : Z;
  entry_value : list UserId
}.

(** Modelled from the spec: [cachetools.TTLCache], whose code is not part of
    the module.  The cache is a bounded store "chat id -> administrator
    ids" with a per-entry expiry: an entry not refreshed within [ttl]
    seconds is a miss at the next lookup; storing overwrites the entry of
    that chat wholesale and resets its expiry clock; at most [maxsize]
    entries are live, and when the entry of a new chat has to be created
    beyond that bound the least recently used entry is evicted first.  The
    entries are kept from the least to the most recently used; the clock is
    the reading of [perf_counter], in seconds. *)
Definition TTLCache := list Entry.

(** Modelled from the spec: an entry is live while the clock is short of
    its expiry; once [ttl] seconds have passed since the store it is not. *)
Definition entry_live (now : Z) (e : Entry) : bool := now <? entry_expires e.

Definition entry_for (k : ChatId) (e : Entry) : bool := entry_key e =? k.

Definition entry_not_for (k : ChatId) (e : Entry) : bool := negb (entry_for k e).

(** Modelled from the spec: the lookup [cache[k]] at clock [now]; [None] is
    the [KeyError] of a miss.  A hit makes the entry the most recently used. *)
Definition TTLCache_getitem (now : Z) (c : TTLCache) (k : ChatId)
  : option (list UserId) * TTLCache :=
  match find (entry_for k) c with
  | Some e =>
      if entry_live now e
      then (Some (entry_value e), filter (entry_not_for k) c ++ [e])
      else (None, c)
  | None => (None, c)
  end.

(** Modelled from the spec: dropping the least recently used entries until
    one more entry fits under [maxsize]. *)
Definition TTLCache_evict (maxsize : Z) (c : TTLCache) : TTLCache :=
  skipn (Z.to_nat (Z.of_nat (List.length c) + 1 - maxsize)) c.

(** Modelled from the spec: the store [cache[k] = v] at clock [now].
    Entries that have expired are no longer live and are dropped; the entry
    of an already cached chat is overwritten, and a new chat's entry is
    created after evicting under capacity pressure.  Either way the entry
    expires [ttl] seconds from [now] and is the most recently used. *)
Definition TTLCache_setitem (maxsize ttl : Z) (now : Z) (c : TTLCache)
    (k : ChatId) (v : list UserId) : TTLCache :=
  let live := filter (entry_live now) c in
  let fresh := mkEntry k (now + ttl) v in
  if existsb (entry_for k) live
  then filter (entry_not_for k) live ++ [fresh]
  else TTLCache_evict maxsize live ++ [fresh].

(** [ADMIN_CACHE = TTLCache(maxsize=512, ttl=60 * 10, timer=perf_counter)] *)
Definition ADMIN_CACHE_maxsize : Z := 512.
Definition ADMIN_CACHE_ttl : Z := 60 * 10.

(** ** Effects *)

(** What a coroutine of the module does to the outside, in order. *)
Inductive Event :=
  | EvGetMember (c : ChatId) (u : UserId)      (* chat.get_member(u) *)
  | EvGetChatAdministrators (c : ChatId)       (* bot.getChatAdministrators(c) *)
  | EvCacheGet (c : ChatId)                    (* ADMIN_CACHE[c] *)
  | EvCacheSet (c : ChatId) (v : list UserId)  (* ADMIN_CACHE[c] = v *)
  | EvReply (text : string)                    (* message.reply_text(text) *)
  | EvDelete                                   (* message.delete() *)
  | EvFunc.                                    (* func(update, context, ...) *)

Record World := mkWorld {
  ADMIN_CACHE : TTLCache;
  clock : Z;
  trace : list Event
}.

Inductive Exn :=
  | TelegramError     (* an upstream call failed *)
  | AttributeError.   (* attribute access on None *)

Inductive Outcome (A : Type) :=
  | Ok (a : A)
  | Raise (e : Exn).
Arguments Ok {A} a.
Arguments Raise {A} e.

Definition M (A : Type) : Type := World -> Outcome A * World.

Definition ret {A} (a : A) : M A := fun w => (Ok a, w).

Definition raise {A} (e : Exn) : M A := fun w => (Raise e, w).

Definition bind {A B} (m : M A) (k : A -> M B) : M B :=
  fun w =>
    match m w with
    | (Ok a, w') => k a w'
    | (Raise e, w') => (Raise e, w')
    end.

Declare Scope py_scope.
Delimit Scope py_scope with py.
Notation "x <- m ;; k" := (bind m (fun x => k))
  (at level 100, m at next level, right associativity) : py_scope.
Notation "m ;; k" := (bind m (fun _ => k))
  (at level 100, right associativity) : py_scope.
Local Open Scope py_scope.

Definition emit (e : Event) : M unit :=
  fun w => (Ok tt, mkWorld (ADMIN_CACHE w) (clock w) (trace w ++ [e])).

(** [try: body except: pass] *)
Definition try_pass (body : M unit) : M unit :=
  fun w => match body w with (_, w') => (Ok tt, w') end.

(** What a guarded handler hands back to its caller. *)
Inductive Returned :=
  | RetFunc                    (* the result of the wrapped action *)
  | RetMessage (text : string) (* the Message returned by reply_text *)
  | RetNone
  | RetSelf.                   (* the wrapper itself (connection_status) *)

(** A block of statements: [Some v] when it executed [return v], [None]
    when control falls through to the statement after it. *)
Definition Block := M (option Returned).

Definition pass : Block := ret None.

Definition Return (m : M Returned) : Block := v <- m ;; ret (Some v).

Definition Do {A} (m : M A) : Block := m ;; ret None.

Definition then_ (s1 s2 : Block) : Block :=
  r <- s1 ;; match r with Some v => ret (Some v) | None => s2 end.

Notation "s1 ;;; s2" := (then_ s1 s2)
  (at level 101, right associativity) : py_scope.

(** The end of the function body returns [None]. *)
Definition body (s : Block) : M Returned :=
  r <- s ;; ret (match r with Some v => v | None => RetNone end).

(** [await message.reply_text(text)]; sending is taken to succeed. *)
Definition reply_text (text : string) : M Returned :=
  emit (EvReply text) ;; ret (RetMessage text).

(** [await func(update, context, *args, **kwargs)] *)
Definition func : M Returned := emit EvFunc ;; ret RetFunc.

(** [user.id] *)
Definition user_id_of (user : option UserId) : M UserId :=
  match user with Some u => ret u | None => raise AttributeError end.

(** [member.status] on a possibly missing record. *)
Definition status_of (m : option ChatMember) : M ChatMemberStatus :=
  match m with Some x => ret (status x) | None => raise AttributeError end.

Definition lift {A} (r : Outcome A) : M A :=
  match r with Ok a => ret a | Raise e => raise e end.

Definition newline : string := String (Ascii.ascii_of_nat 10) EmptyString.

Fixpoint has_space (s : string) : bool :=
  match s with
  | EmptyString => false
  | String c s' => Ascii.eqb c (Ascii.ascii_of_nat 32) || has_space s'
  end.

(** [isinstance(m, ChatMemberOwner)]; [None] is an instance of neither class. *)
Definition isinstance_ChatMemberOwner (m : option ChatMember) : bool :=
  match m with Some (ChatMemberOwner _) => true | _ => false end.

(** [getattr(m, permission) if isinstance(m, ChatMemberAdministrator) else False] *)
Definition admin_flag (m : option ChatMember) (p : Permission) : bool :=
  match m with
  | Some (ChatMemberAdministrator _ r) => getattr r p
  | _ => false
  end.

(** ** Sample data

    A supergroup, the records the platform holds for its members, and two
    small tiers, for running the guards on concrete updates. *)

Definition no_rights : Rights.AdminRights :=
  Rights.mkRights false false false false false false false false false
    false false.

Definition all_rights : Rights.AdminRights :=
  Rights.mkRights true true true true true true true true true true true.

Definition sample_group : Chat := mkChat (-100) SUPERGROUP "Darling".

Definition sample_update (u : UserId) : Update :=
  mkUpdate sample_group (Some u) (mkMessage sample_group "/ban").

Definition sample_world : World := mkWorld [] 0 [].

(** User 1 is the bot, an administrator with every right; 2 owns the
    group; 3 and 5 are administrators with no right; 7 has left and 8 is
    restricted; everybody else is a plain member. *)
Definition sample_bot_id : UserId := 1.

Definition sample_get_member (c : ChatId) (u : UserId) : Outcome ChatMember :=
  if u =? 1 then Ok (ChatMemberAdministrator 1 all_rights)
  else if u =? 2 then Ok (ChatMemberOwner 2)
  else if u =? 3 then Ok (ChatMemberAdministrator 3 no_rights)
  else if u =? 5 then Ok (ChatMemberAdministrator 5 no_rights)
  else if u =? 7 then Ok (ChatMemberLeft 7)
  else if u =? 8 then Ok (ChatMemberRestricted 8)
  else Ok (ChatMemberMember u).

Definition sample_getChatAdministrators (c : ChatId)
  : Outcome (list ChatMember) :=
  Ok [ChatMemberOwner 2; ChatMemberAdministrator 3 no_rights;
      ChatMemberAdministrator 5 no_rights;
      ChatMemberAdministrator 1 all_rights].

Definition failing_getChatAdministrators (c : ChatId)
  : Outcome (list ChatMember) :=
  Raise TelegramError.

(** The developer tier holds 9 and 10, the sudo tier 5 and 6. *)
Definition sample_DEV_USERS : list UserId := [9; 10].
Definition sample_DRAGONS : list UserId := [5; 6].

(** A cache filled to capacity: chats 1 to 512, stored in that order and
    live until clock 1000. *)
Definition full_cache : TTLCache :=
  map (fun i => mkEntry (Z.of_nat i) 1000 []) (seq 1 512).

Definition full_world : World := mkWorld full_cache 0 [].

(** A private chat with user 4, an update sent there, and an update of the
    sample group that has no sender. *)
Definition sample_private : Chat := mkChat 4 PRIVATE "".

Definition sample_private_update (u : UserId) : Update :=
  mkUpdate sample_private (Some u) (mkMessage sample_private "/ban").

Definition senderless_update : Update :=
  mkUpdate sample_group None (mkMessage sample_group "/ban").

Definition failing_delete : Outcome unit := Raise TelegramError.


(** Unfolding the monad and the statement combinators in a goal. *)
Ltac step_monad :=
  unfold body, then_, Return, Do, pass, func, reply_text, user_id_of,
    status_of, lift, bind, ret, raise, emit;
  simpl.

(** ** The module *)

Section ChatStatus.

(** Names imported from the [zerotwobot] package. *)
Variable DEL_CMDS : bool.
Variables DEMONS DEV_USERS DRAGONS TIGERS WOLVES : list UserId.
Variable SUPPORT_CHAT : string.

(** The platform behind [chat.get_member], [bot.getChatAdministrators] and
    [message.delete]: each call answers or fails. *)
Variable bot_id : UserId.
Variable upstream_get_member : ChatId -> UserId -> Outcome ChatMember.
Variable upstream_getChatAdministrators : ChatId -> Outcome (list ChatMember).
Variable upstream_delete : Outcome unit.

Definition Chat_get_member (chat : Chat) (u : UserId) : M ChatMember :=
  emit (EvGetMember (chat_id chat) u) ;;
  lift (upstream_get_member (chat_id chat) u).

Definition getChatAdministrators (c : ChatId) : M (list ChatMember) :=
  emit (EvGetChatAdministrators c) ;;
  lift (upstream_getChatAdministrators c).

Definition message_delete : M unit :=
  emit EvDelete ;; lift upstream_delete.

(** [ADMIN_CACHE[k]]: [None] stands for the [KeyError]. *)
Definition ADMIN_CACHE_getitem (k : ChatId) : M (option (list UserId)) :=
  fun w =>
    let (r, c') := TTLCache_getitem (clock w) (ADMIN_CACHE w) k in
    (Ok r, mkWorld c' (clock w) (trace w ++ [EvCacheGet k])).

(** [ADMIN_CACHE[k] = v] *)
Definition ADMIN_CACHE_setitem (k : ChatId) (v : list UserId) : M unit :=
  fun w =>
    (Ok tt,
     mkWorld
       (TTLCache_setitem ADMIN_CACHE_maxsize ADMIN_CACHE_ttl
          (clock w) (ADMIN_CACHE w) k v)
       (clock w) (trace w ++ [EvCacheSet k v])).

(** The test shared by the [is_user] and [is_both] branches:
    [getattr(user_member, permission)
       if isinstance(user_member, ChatMemberAdministrator)
       else False or user.id in DRAGONS]
    A conditional expression binds weaker than [or], so the [or] belongs
    to the [else] arm. *)
Definition user_flag_or_dragon (user_member : option ChatMember)
    (p : Permission) (user : option UserId) : M bool :=
  match user_member with
  | Some (ChatMemberAdministrator _ r) => ret (getattr r p)
  | _ => u <- user_id_of user ;; ret (false || contains u DRAGONS)
  end.

(** [isinstance(user_member, ChatMemberOwner) or user.id in DEV_USERS] *)
Definition owner_or_dev (user_member : option ChatMember)
    (user : option UserId) : M bool :=
  if isinstance_ChatMemberOwner user_member then ret true
  else u <- user_id_of user ;; ret (contains u DEV_USERS).

Definition dev_only_text : string :=
  "This is a developer restricted command. You do not have permissions to run this.".

Definition sudo_only_text : string :=
  "Who the hell are you to say me what to do?".

Definition bot_lacks_text (p : Permission) : string :=
  ("I don't have " ++ permission_name p ++ " to do this action.")%string.

Definition user_lacks_text (p : Permission) : string :=
  ("You don't have " ++ permission_name p ++ " to do this action.")%string.

(** [check_admin(permission, is_bot, is_user, is_both, only_owner,
    only_sudo, only_dev)(func)(update, context)] *)
Definition check_admin (permission : option Permission)
    (is_bot is_user is_both only_owner only_sudo only_dev : bool)
    (update : Update) : M Returned :=
  let chat := effective_chat update in
  let user := effective_user update in
  if is_private chat then func
  else
    bot_member <-
      (if is_bot || is_both
       then (m <- Chat_get_member chat bot_id ;; ret (Some m))
       else ret None) ;;
    user_member <-
      (if is_user || is_bot
       then (u <- user_id_of user ;; m <- Chat_get_member chat u ;; ret (Some m))
       else ret None) ;;
    body (
      (if only_owner then
         (ok <- owner_or_dev user_member user ;;
          if ok then Return func
          else Return (reply_text "Only chat owner can perform this action."))
       else pass) ;;;
      (if only_dev then
         (u <- user_id_of user ;;
          if contains u DEV_USERS then Return func
          else Do (reply_text dev_only_text))
       else pass) ;;;
      (if only_sudo then
         (u <- user_id_of user ;;
          if py_in (PyInt u) [PyColl DRAGONS; PyColl DEV_USERS]
          then Return func
          else Return (reply_text sudo_only_text))
       else pass) ;;;
      match permission with
      | Some p =>
          (if is_bot then
             if admin_flag bot_member p then Return func
             else Return (reply_text (bot_lacks_text p))
           else pass) ;;;
          (if is_user then
             if isinstance_ChatMemberOwner user_member then Return func
             else
               (c <- user_flag_or_dragon user_member p user ;;
                if c then Return func
                else Return (reply_text (user_lacks_text p)))
           else pass) ;;;
          (if is_both then
             (if admin_flag bot_member p then pass
              else Return (reply_text (bot_lacks_text p))) ;;;
             (ok <- owner_or_dev user_member user ;;
              if ok then pass
              else
                (c <- user_flag_or_dragon user_member p user ;;
                 if c then pass
                 else Return (reply_text (user_lacks_text p)))) ;;;
             Return func
           else pass)
      | None =>
          (s <- status_of bot_member ;;
           if ChatMemberStatus_eqb s ADMINISTRATOR then pass
           else Return (reply_text "I'm not admin here.")) ;;;
          (s <- status_of user_member ;;
           if status_in s [ADMINISTRATOR; OWNER] then pass
           else
             (u <- user_id_of user ;;
              if contains u DRAGONS then pass
              else Return (reply_text "You are not admin here.")))
      end).

Definition is_whitelist_plus (chat : Chat) (user_id : UserId) : bool :=
  existsb (contains user_id) [WOLVES; TIGERS; DEMONS; DRAGONS; DEV_USERS].

Definition is_support_plus (chat : Chat) (user_id : UserId) : bool :=
  contains user_id DEMONS || contains user_id DRAGONS
  || contains user_id DEV_USERS.

Definition is_sudo_plus (chat : Chat) (user_id : UserId) : bool :=
  contains user_id DRAGONS || contains user_id DEV_USERS.

Definition is_user_admin (chat : Chat) (user_id : UserId)
    (member : option ChatMember) : M bool :=
  if is_private chat
     || contains user_id DRAGONS
     || contains user_id DEV_USERS
     || contains user_id [777000; 1087968824]
  then ret true
  else
    match member with
    | None =>
        r <- ADMIN_CACHE_getitem (chat_id chat) ;;
        match r with
        | Some admins => ret (contains user_id admins)
        | None =>
            chat_admins <- getChatAdministrators (chat_id chat) ;;
            let admin_list := map member_user_id chat_admins in
            ADMIN_CACHE_setitem (chat_id chat) admin_list ;;
            ret (contains user_id admin_list)
        end
    | Some m => ret (status_in (status m) [ADMINISTRATOR; OWNER])
    end.

Definition is_bot_admin (chat : Chat) (bot : UserId)
    (bot_member : option ChatMember) : M bool :=
  if is_private chat then ret true
  else
    m <- (match bot_member with
          | None => Chat_get_member chat bot
          | Some m => ret m
          end) ;;
    ret (status_in (status m) [ADMINISTRATOR; OWNER]).

Definition is_user_ban_protected (chat : Chat) (user_id : UserId)
    (member : option ChatMember) : M bool :=
  if is_private chat
     || contains user_id DRAGONS
     || contains user_id DEV_USERS
     || contains user_id WOLVES
     || contains user_id TIGERS
     || contains user_id [777000; 1087968824]
  then ret true
  else
    m <- (match member with
          | None => Chat_get_member chat user_id
          | Some m => ret m
          end) ;;
    ret (status_in (status m) [ADMINISTRATOR; OWNER]).

Definition is_user_in_chat (chat : Chat) (user_id : UserId) : M bool :=
  member <- Chat_get_member chat user_id ;;
  ret (status_in (status member) [LEFT; RESTRICTED]).

(** [user_admin(func)(update, context)] *)
Definition user_admin (update : Update) : M Returned :=
  let user := effective_user update in
  let chat := effective_chat update in
  body (
    ok <- (match user with
           | Some u => is_user_admin chat u None
           | None => ret false
           end) ;;
    if ok then Return func
    else
      match user with
      | None => pass
      | Some _ =>
          if DEL_CMDS && negb (has_space (message_text (effective_message update)))
          then Do (try_pass message_delete)
          else Do (reply_text sudo_only_text)
      end).

Definition cant_manage_topics_text (update : Update) : string :=
  let update_chat_title := chat_title (effective_chat update) in
  let message_chat_title :=
    chat_title (message_chat (effective_message update)) in
  if String.eqb update_chat_title message_chat_title
  then ("I can't manage topics here!" ++ newline
        ++ "Make sure I'm admin and can manage topics.")%string
  else ("I can't manage topics in <b>" ++ update_chat_title ++ "</b>!"
        ++ newline
        ++ "Make sure I'm admin there and can manage topics.")%string.

(** [can_manage_topics(func)(update, context)] *)
Definition can_manage_topics (update : Update) : M Returned :=
  let chat := effective_chat update in
  let cant_restrict := cant_manage_topics_text update in
  bot_member <- Chat_get_member chat bot_id ;;
  body (
    match bot_member with
    | ChatMemberAdministrator _ r =>
        if Rights.can_restrict_members r then Return func
        else Do (reply_text cant_restrict)
    | _ => pass
    end).


(** ** The other guards of the module *)

(** [" " not in update.effective_message.text] *)
Definition bare_command (update : Update) : bool :=
  negb (has_space (message_text (effective_message update))).

(** [update_chat_title == message_chat_title] *)
Definition same_title (update : Update) : bool :=
  String.eqb (chat_title (effective_chat update))
    (chat_title (message_chat (effective_message update))).

(** [can_delete(chat, bot_id)]: the flag of an administrator record; for
    any other record the function ends without a [return], that is with
    [None]. *)
Definition can_delete (chat : Chat) (bot : UserId) : M (option bool) :=
  chat_member <- Chat_get_member chat bot ;;
  match chat_member with
  | ChatMemberAdministrator _ r => ret (Some (Rights.can_delete_messages r))
  | _ => ret None
  end.

(** The truth value of what [can_delete] returns. *)
Definition truthy (v : option bool) : bool :=
  match v with Some b => b | None => false end.

(** [dev_plus(func)(update, context)] *)
Definition dev_plus (update : Update) : M Returned :=
  let user := effective_user update in
  body (
    u <- user_id_of user ;;
    if contains u DEV_USERS then Return func
    else
      match user with
      | None => pass
      | Some _ =>
          if DEL_CMDS && bare_command update
          then Do (try_pass message_delete)
          else Do (reply_text dev_only_text)
      end).

(** [sudo_plus(func)(update, context)] *)
Definition sudo_plus (update : Update) : M Returned :=
  let user := effective_user update in
  let chat := effective_chat update in
  body (
    if match user with Some u => is_sudo_plus chat u | None => false end
    then Return func
    else
      match user with
      | None => pass
      | Some _ =>
          if DEL_CMDS && bare_command update
          then Do (try_pass message_delete)
          else Do (reply_text sudo_only_text)
      end).

(** [support_plus(func)(update, context)] *)
Definition support_plus (update : Update) : M Returned :=
  let user := effective_user update in
  let chat := effective_chat update in
  body (
    if match user with Some u => is_support_plus chat u | None => false end
    then Return func
    else
      if DEL_CMDS && bare_command update
      then Do (try_pass message_delete)
      else pass).

Definition no_access_text : string :=
  ("You don't have access to use this." ++ newline
   ++ "Visit @" ++ SUPPORT_CHAT)%string.

(** [whitelist_plus(func)(update, context)] *)
Definition whitelist_plus (update : Update) : M Returned :=
  let user := effective_user update in
  let chat := effective_chat update in
  body (
    if match user with Some u => is_whitelist_plus chat u | None => false end
    then Return func
    else Do (reply_text no_access_text)).

(** [user_admin_no_reply(func)(update, context)] *)
Definition user_admin_no_reply (update : Update) : M Returned :=
  let user := effective_user update in
  let chat := effective_chat update in
  body (
    ok <- (match user with
           | Some u => is_user_admin chat u None
           | None => ret false
           end) ;;
    if ok then Return func
    else
      match user with
      | None => pass
      | Some _ =>
          if DEL_CMDS && bare_command update
          then Do (try_pass message_delete)
          else pass
      end).

(** [user_not_admin(func)(update, context)] *)
Definition user_not_admin (update : Update) : M Returned :=
  let user := effective_user update in
  let chat := effective_chat update in
  body (
    ok <- (match user with
           | Some u => (b <- is_user_admin chat u None ;; ret (negb b))
           | None => ret false
           end) ;;
    if ok then Return func
    else
      match user with
      | None => pass
      | Some _ => pass
      end).

Definition not_admin_text (update : Update) : string :=
  if same_title update then "I'm not admin!"
  else ("I'm not admin in <b>" ++ chat_title (effective_chat update)
        ++ "</b>!")%string.

(** [bot_admin(func)(update, context)] *)
Definition bot_admin (update : Update) : M Returned :=
  let chat := effective_chat update in
  let not_admin := not_admin_text update in
  body (
    ok <- is_bot_admin chat bot_id None ;;
    if ok then Return func
    else Do (reply_text not_admin)).

Definition cant_delete_text (update : Update) : string :=
  if same_title update
  then ("I can't delete messages here!" ++ newline
        ++ "Make sure I'm admin and can delete other user's messages.")%string
  else ("I can't delete messages in <b>" ++ chat_title (effective_chat update)
        ++ "</b>!" ++ newline
        ++ "Make sure I'm admin and can delete other user's messages there."
       )%string.

(** [bot_can_delete(func)(update, context)] *)
Definition bot_can_delete (update : Update) : M Returned :=
  let chat := effective_chat update in
  let cant_delete := cant_delete_text update in
  body (
    v <- can_delete chat bot_id ;;
    if truthy v then Return func
    else Do (reply_text cant_delete)).

Definition cant_pin_text (update : Update) : string :=
  if same_title update
  then ("I can't pin messages here!" ++ newline
        ++ "Make sure I'm admin and can pin messages.")%string
  else ("I can't pin messages in <b>" ++ chat_title (effective_chat update)
        ++ "</b>!" ++ newline
        ++ "Make sure I'm admin and can pin messages there.")%string.

(** [can_pin(func)(update, context)] *)
Definition can_pin (update : Update) : M Returned :=
  let chat := effective_chat update in
  let cant_pin := cant_pin_text update in
  bot_member <- Chat_get_member chat bot_id ;;
  body (
    match bot_member with
    | ChatMemberAdministrator _ r =>
        if Rights.can_pin_messages r then Return func
        else Do (reply_text cant_pin)
    | _ => pass
    end).

Definition cant_promote_text (update : Update) : string :=
  if same_title update
  then ("I can't promote/demote people here!" ++ newline
        ++ "Make sure I'm admin and can appoint new admins.")%string
  else ("I can't promote/demote people in <b>"
        ++ chat_title (effective_chat update) ++ "</b>!" ++ newline
        ++ "Make sure I'm admin there and can appoint new admins.")%string.

(** [can_promote(func)(update, context)] *)
Definition can_promote (update : Update) : M Returned :=
  let chat := effective_chat update in
  let cant_promote := cant_promote_text update in
  bot_member <- Chat_get_member chat bot_id ;;
  body (
    match bot_member with
    | ChatMemberAdministrator _ r =>
        if Rights.can_promote_members r then Return func
        else Do (reply_text cant_promote)
    | _ => pass
    end).

Definition cant_restrict_text (update : Update) : string :=
  if same_title update
  then ("I can't restrict people here!" ++ newline
        ++ "Make sure I'm admin and can restrict users.")%string
  else ("I can't restrict people in <b>"
        ++ chat_title (effective_chat update) ++ "</b>!" ++ newline
        ++ "Make sure I'm admin there and can restrict users.")%string.

(** [can_restrict(func)(update, context)] *)
Definition can_restrict (update : Update) : M Returned :=
  let chat := effective_chat update in
  let cant_restrict := cant_restrict_text update in
  bot_member <- Chat_get_member chat bot_id ;;
  body (
    match bot_member with
    | ChatMemberAdministrator _ r =>
        if Rights.can_restrict_members r then Return func
        else Do (reply_text cant_restrict)
    | _ => pass
    end).

(** ** Observations on a run *)

Definition is_EvFunc (e : Event) : bool :=
  match e with EvFunc => true | _ => false end.

Definition is_cache_event (e : Event) : bool :=
  match e with EvCacheGet _ | EvCacheSet _ _ => true | _ => false end.

Definition is_upstream_event (e : Event) : bool :=
  match e with
  | EvGetMember _ _ | EvGetChatAdministrators _ => true
  | _ => false
  end.

(** The wrapped action ran and its result was handed back. *)
Definition invoked (r : Outcome Returned * World) : Prop :=
  fst r = Ok RetFunc /\ existsb is_EvFunc (trace (snd r)) = true.

(** The capacity bound of [ADMIN_CACHE]. *)
Definition cache_bounded (w : World) : Prop :=
  Z.of_nat (List.length (ADMIN_CACHE w)) <= ADMIN_CACHE_maxsize.

(** The tiers and pseudo-users [is_user_admin] lets through unexamined. *)
Definition admin_bypass (user_id : UserId) : bool :=
  contains user_id DRAGONS
  || contains user_id DEV_USERS
  || contains user_id [777000; 1087968824].

(** The world [w] after the events [evs], cache and clock untouched. *)
Definition extend (w : World) (evs : list Event) : World :=
  mkWorld (ADMIN_CACHE w) (clock w) (trace w ++ evs).

Definition is_EvReply (e : Event) : bool :=
  match e with EvReply _ => true | _ => false end.

(** The events of a guard that decides on member records: fetching a
    record, replying, calling the wrapped action. *)
Definition member_guard_event (e : Event) : bool :=
  match e with
  | EvGetMember _ _ | EvReply _ | EvFunc => true
  | _ => false
  end.

(** The events of a guard that decides on the tier lists alone. *)
Definition tier_guard_event (e : Event) : bool :=
  match e with
  | EvReply _ | EvDelete | EvFunc => true
  | _ => false
  end.

(** A computation that leaves cache and clock alone and adds only events
    accepted by [P] to the trace, however it ends. *)
Definition only_events {A} (P : Event -> bool) (m : M A) : Prop :=
  forall w, exists evs,
    snd (m w) = extend w evs /\ forallb P evs = true.

(** The record is an administrator's and has the capability [p] set. *)
Definition holds_right (m : ChatMember) (p : Permission) : Prop :=
  exists x rights,
    m = ChatMemberAdministrator x rights /\ getattr rights p = true.

(** The events of a guard that decides through [is_user_admin]: anything
    but fetching a single member record. *)
Definition admin_guard_event (e : Event) : bool :=
  match e with EvGetMember _ _ => false | _ => true end.

(** [admin_guard_event] without the reply. *)
Definition quiet_admin_guard_event (e : Event) : bool :=
  match e with EvGetMember _ _ | EvReply _ => false | _ => true end.

(** What the resolver itself does: cache accesses and the administrator
    fetch. *)
Definition resolver_event (e : Event) : bool :=
  match e with
  | EvCacheGet _ | EvCacheSet _ _ | EvGetChatAdministrators _ => true
  | _ => false
  end.

(** A computation that leaves the clock alone and adds only events
    accepted by [P] to the trace; the cache may change. *)
Definition appends_only {A} (P : Event -> bool) (m : M A) : Prop :=
  forall w, exists evs,
    trace (snd (m w)) = trace w ++ evs
    /\ clock (snd (m w)) = clock w
    /\ forallb P evs = true.

(** Every entry the cache holds for chat [k] stops being live at [bound]
    at the latest. *)
Definition expires_by (k : ChatId) (bound : Z) (c : TTLCache) : Prop :=
  forall e, In e c -> entry_key e = k -> entry_expires e <= bound.

(** The guard's run from [w] ends in [w'], or in [w'] but for a last reply
    of its own in place of [text]. *)
Definition same_but_reply (w' : World) (text : string)
    (other : World) (other_text : string) : Prop :=
  w' = other
  \/ exists w0,
       w' = extend w0 [EvReply text]
       /\ other = extend w0 [EvReply other_text].

(** ** Lists and membership *)

Lemma contains_In (x : Z) (l : list Z) : contains x l = true <-> In x l.
Proof using Type.
  unfold contains. rewrite existsb_exists. split.
  - intros (y & Hy & Heq). apply Z.eqb_eq in Heq. now subst.
  - intros H. exists x. split; [assumption | apply Z.eqb_refl].
Qed.

Lemma py_in_int_among_collections (u : Z) (colls : list (list Z)) :
  py_in (PyInt u) (map PyColl colls) = false.
Proof using Type.
  induction colls as [| c colls IH]; simpl; [reflexivity | exact IH].
Qed.

Lemma status_in_admin_owner (s : ChatMemberStatus) :
  status_in s [ADMINISTRATOR; OWNER] = true <-> s = ADMINISTRATOR \/ s = OWNER.
Proof using Type.
  destruct s; simpl; split; intros H; try discriminate; auto;
    destruct H as [H | H]; discriminate H.
Qed.

Lemma status_in_left_restricted (s : ChatMemberStatus) :
  status_in s [LEFT; RESTRICTED] = true <-> s = LEFT \/ s = RESTRICTED.
Proof using Type.
  destruct s; simpl; split; intros H; try discriminate; auto;
    destruct H as [H | H]; discriminate H.
Qed.

(** ** The cache model *)

Lemma find_last {A} (f : A -> bool) (l : list A) (x : A) :
  existsb f l = false -> f x = true -> find f (l ++ [x]) = Some x.
Proof using Type.
  induction l as [| a l IH]; simpl; intros Hl Hx.
  - now rewrite Hx.
  - apply orb_false_iff in Hl. destruct Hl as [Ha Hl].
    rewrite Ha. now apply IH.
Qed.

Lemma existsb_filter_out (k : ChatId) (c : TTLCache) :
  existsb (entry_for k) (filter (entry_not_for k) c) = false.
Proof using Type.
  induction c as [| e c IH]; simpl; [reflexivity |].
  unfold entry_not_for at 1.
  destruct (entry_for k e) eqn:He; simpl; [exact IH |].
  now rewrite He.
Qed.

Lemma existsb_skipn {A} (f : A -> bool) (n : nat) (l : list A) :
  existsb f l = false -> existsb f (skipn n l) = false.
Proof using Type.
  revert l. induction n as [| n IH]; intros [| a l]; simpl; auto.
  intros H. apply orb_false_iff in H. now apply IH.
Qed.

Lemma filter_out_shrinks (k : ChatId) (c : TTLCache) :
  existsb (entry_for k) c = true ->
  (List.length (filter (entry_not_for k) c) < List.length c)%nat.
Proof using Type.
  induction c as [| e c IH]; simpl; [discriminate |].
  unfold entry_not_for at 1.
  destruct (entry_for k e) eqn:He; simpl; intros H.
  - pose proof (filter_length_le (entry_not_for k) c). lia.
  - apply IH in H. lia.
Qed.

Lemma find_existsb {A} (f : A -> bool) (l : list A) :
  existsb f l = match find f l with Some _ => true | None => false end.
Proof using Type.
  induction l as [| a l IH]; simpl; [reflexivity |].
  destruct (f a); simpl; [reflexivity | exact IH].
Qed.

(** A miss leaves the store as it was. *)
Lemma TTLCache_getitem_miss (now : Z) (c : TTLCache) (k : ChatId) :
  fst (TTLCache_getitem now c k) = None ->
  snd (TTLCache_getitem now c k) = c.
Proof using Type.
  unfold TTLCache_getitem.
  destruct (find (entry_for k) c) as [e |]; [| reflexivity].
  destruct (entry_live now e); simpl; [discriminate | reflexivity].
Qed.

(** A lookup never grows the store. *)
Lemma TTLCache_getitem_length (now : Z) (c : TTLCache) (k : ChatId) :
  (List.length (snd (TTLCache_getitem now c k)) <= List.length c)%nat.
Proof using Type.
  unfold TTLCache_getitem.
  destruct (find (entry_for k) c) as [e |] eqn:Hf; simpl; [| lia].
  destruct (entry_live now e); simpl; [| lia].
  rewrite length_app. simpl.
  assert (H : existsb (entry_for k) c = true)
    by (rewrite find_existsb, Hf; reflexivity).
  apply filter_out_shrinks in H. lia.
Qed.

(** A store keeps the state within [maxsize] entries. *)
Lemma TTLCache_setitem_length (maxsize ttl now : Z) (c : TTLCache)
    (k : ChatId) (v : list UserId) :
  0 < maxsize ->
  Z.of_nat (List.length c) <= maxsize ->
  Z.of_nat (List.length (TTLCache_setitem maxsize ttl now c k v)) <= maxsize.
Proof using Type.
  intros Hpos Hc. unfold TTLCache_setitem.
  pose proof (filter_length_le (entry_live now) c) as Hlive.
  destruct (existsb (entry_for k) (filter (entry_live now) c)) eqn:Hk.
  - apply filter_out_shrinks in Hk. rewrite length_app. simpl. lia.
  - unfold TTLCache_evict. rewrite length_app, length_skipn. simpl. lia.
Qed.

(** Creating the entry of a new chat in a full store of live entries
    evicts exactly the least recently used one. *)
Lemma TTLCache_setitem_evicts_lru (maxsize ttl now : Z) (lru : Entry)
    (rest : TTLCache) (k : ChatId) (v : list UserId) :
  Z.of_nat (List.length (lru :: rest)) = maxsize ->
  forallb (entry_live now) (lru :: rest) = true ->
  existsb (entry_for k) (lru :: rest) = false ->
  TTLCache_setitem maxsize ttl now (lru :: rest) k v
  = rest ++ [mkEntry k (now + ttl) v].
Proof using Type.
  intros Hlen Hlive Hk. unfold TTLCache_setitem.
  rewrite (forallb_filter_id _ _ Hlive), Hk.
  unfold TTLCache_evict. rewrite Hlen.
  replace (Z.to_nat (maxsize + 1 - maxsize)) with 1%nat by lia.
  reflexivity.
Qed.

(** After a store the entry is where a lookup finds it. *)
Lemma TTLCache_setitem_find (maxsize ttl now : Z) (c : TTLCache)
    (k : ChatId) (v : list UserId) :
  find (entry_for k) (TTLCache_setitem maxsize ttl now c k v)
  = Some (mkEntry k (now + ttl) v).
Proof using Type.
  unfold TTLCache_setitem.
  destruct (existsb (entry_for k) (filter (entry_live now) c)) eqn:Hk;
    apply find_last;
    try (unfold entry_for; simpl; apply Z.eqb_refl).
  - apply existsb_filter_out.
  - unfold TTLCache_evict. now apply existsb_skipn.
Qed.

(** Within [ttl] of the store, the lookup is a hit with the stored value. *)
Lemma TTLCache_hit_after_setitem (maxsize ttl now now' : Z) (c : TTLCache)
    (k : ChatId) (v : list UserId) :
  now' < now + ttl ->
  fst (TTLCache_getitem now' (TTLCache_setitem maxsize ttl now c k v) k)
  = Some v.
Proof using Type.
  intros Hfresh. unfold TTLCache_getitem.
  rewrite TTLCache_setitem_find. unfold entry_live. simpl.
  apply Z.ltb_lt in Hfresh. now rewrite Hfresh.
Qed.

(** [ttl] after the store, the lookup is a miss. *)
Lemma TTLCache_miss_after_ttl (maxsize ttl now now' : Z) (c : TTLCache)
    (k : ChatId) (v : list UserId) :
  now + ttl <= now' ->
  fst (TTLCache_getitem now' (TTLCache_setitem maxsize ttl now c k v) k)
  = None.
Proof using Type.
  intros Hold. unfold TTLCache_getitem.
  rewrite TTLCache_setitem_find. unfold entry_live. simpl.
  apply Z.ltb_ge in Hold. now rewrite Hold.
Qed.

(** ** The membership resolver *)

Lemma is_user_admin_guard_false (chat : Chat) (user_id : UserId) :
  is_private chat = false ->
  admin_bypass user_id = false ->
  is_private chat
  || contains user_id DRAGONS
  || contains user_id DEV_USERS
  || contains user_id [777000; 1087968824] = false.
Proof using Type.
  unfold admin_bypass. intros -> H.
  destruct (contains user_id DRAGONS), (contains user_id DEV_USERS);
    simpl in *; try discriminate; exact H.
Qed.

(** Every run of [is_user_admin] keeps the cache within its bound. *)
Lemma is_user_admin_cache_bounded (chat : Chat) (user_id : UserId)
    (member : option ChatMember) (w : World) :
  cache_bounded w ->
  cache_bounded (snd (is_user_admin chat user_id member w)).
Proof using Type.
  unfold cache_bounded, is_user_admin. intros Hb.
  destruct (is_private chat || contains user_id DRAGONS
            || contains user_id DEV_USERS
            || contains user_id [777000; 1087968824]); [exact Hb |].
  destruct member as [m |]; [exact Hb |].
  unfold ADMIN_CACHE_getitem, ADMIN_CACHE_setitem, getChatAdministrators.
  step_monad.
  pose proof (TTLCache_getitem_length (clock w) (ADMIN_CACHE w) (chat_id chat))
    as Hlen.
  destruct (TTLCache_getitem (clock w) (ADMIN_CACHE w) (chat_id chat))
    as [[admins |] c'] eqn:Hget; simpl in *; [lia |].
  destruct (upstream_getChatAdministrators (chat_id chat)) as [l | e];
    simpl; [| lia].
  apply TTLCache_setitem_length; [reflexivity | lia].
Qed.

(** C4: for every user id in the developer tier, in the sudo tier, or equal
    to one of the two platform pseudo-user ids, [is_user_admin] answers
    [True] in every chat, for every state of the admin cache and whatever
    the platform would answer (an administrator fetch that fails included):
    it returns at once, with no cache access and no upstream call, whether
    or not a member record is supplied. *)
Theorem is_user_admin_privileged_always_true (chat : Chat)
    (user_id : UserId) (member : option ChatMember) (w : World) :
  In user_id DEV_USERS \/ In user_id DRAGONS
  \/ user_id = 777000 \/ user_id = 1087968824 ->
  is_user_admin chat user_id member w = (Ok true, w).
Proof using Type.
  intros H. unfold is_user_admin.
  assert (Hc : is_private chat || contains user_id DRAGONS
               || contains user_id DEV_USERS
               || contains user_id [777000; 1087968824] = true).
  { destruct H as [H | [H | [H | H]]].
    - apply contains_In in H. rewrite H.
      now rewrite orb_true_r.
    - apply contains_In in H. rewrite H.
      now rewrite orb_true_r.
    - subst. simpl. now rewrite orb_true_r.
    - subst. simpl. now rewrite orb_true_r. }
  rewrite Hc. reflexivity.
Qed.

(** C8: when the lookup misses and the platform's administrator fetch
    fails, the error comes out of [is_user_admin] and out of the
    [user_admin] guard around it; the cache is what it was (nothing is
    stored, no negative answer either), and the run consists of the lookup
    and the failed fetch only: the guarded action is not called and the
    user is not taken for an administrator. *)
Theorem user_admin_fetch_failure_fails_closed (update : Update)
    (user_id : UserId) (e : Exn) (w : World) :
  effective_user update = Some user_id ->
  is_private (effective_chat update) = false ->
  admin_bypass user_id = false ->
  fst (TTLCache_getitem (clock w) (ADMIN_CACHE w)
         (chat_id (effective_chat update))) = None ->
  upstream_getChatAdministrators (chat_id (effective_chat update)) = Raise e ->
  let cid := chat_id (effective_chat update) in
  let after :=
    mkWorld (ADMIN_CACHE w) (clock w)
      (trace w ++ [EvCacheGet cid] ++ [EvGetChatAdministrators cid]) in
  is_user_admin (effective_chat update) user_id None w = (Raise e, after)
  /\ user_admin update w = (Raise e, after)
  /\ ~ invoked (user_admin update w).
Proof using Type.
  intros Hu Hp Hb Hmiss Hup cid after.
  assert (Hadm : is_user_admin (effective_chat update) user_id None w
                 = (Raise e, after)).
  { unfold is_user_admin.
    rewrite (is_user_admin_guard_false _ _ Hp Hb).
    unfold ADMIN_CACHE_getitem, getChatAdministrators. step_monad.
    pose proof (TTLCache_getitem_miss _ _ _ Hmiss) as Hsame.
    destruct (TTLCache_getitem (clock w) (ADMIN_CACHE w)
                (chat_id (effective_chat update))) as [r c'].
    simpl in Hmiss, Hsame. subst r c'. simpl.
    rewrite Hup. simpl. unfold after, cid.
    now rewrite <- app_assoc. }
  assert (Hguard : user_admin update w = (Raise e, after)).
  { unfold user_admin. rewrite Hu.
    unfold body at 1. unfold bind at 1. unfold bind at 1.
    now rewrite Hadm. }
  repeat split; try assumption.
  unfold invoked. rewrite Hguard. simpl. intros [H _]. discriminate H.
Qed.

(** C10: [is_user_in_chat] fetches the member record afresh and answers
    [True] if and only if its status is left or restricted; for a plain
    member, an administrator and the owner it answers [False]. *)
Theorem is_user_in_chat_iff_left_or_restricted (chat : Chat)
    (user_id : UserId) (m : ChatMember) (w : World) :
  upstream_get_member (chat_id chat) user_id = Ok m ->
  exists b : bool,
    is_user_in_chat chat user_id w
    = (Ok b,
       mkWorld (ADMIN_CACHE w) (clock w)
         (trace w ++ [EvGetMember (chat_id chat) user_id]))
    /\ (b = true <-> status m = LEFT \/ status m = RESTRICTED)
    /\ (status m = MEMBER \/ status m = ADMINISTRATOR \/ status m = OWNER ->
        b = false).
Proof using Type.
  intros Hup. exists (status_in (status m) [LEFT; RESTRICTED]).
  split; [| split].
  - unfold is_user_in_chat, Chat_get_member. step_monad.
    rewrite Hup. reflexivity.
  - apply status_in_left_restricted.
  - intros [H | [H | H]]; rewrite H; reflexivity.
Qed.

Lemma miss_all_live_no_entry (now : Z) (c : TTLCache) (k : ChatId) :
  fst (TTLCache_getitem now c k) = None ->
  forallb (entry_live now) c = true ->
  existsb (entry_for k) c = false.
Proof using Type.
  unfold TTLCache_getitem. intros Hmiss Hlive.
  rewrite find_existsb.
  destruct (find (entry_for k) c) as [e |] eqn:Hf; [| reflexivity].
  apply find_some in Hf. destruct Hf as [Hin _].
  rewrite forallb_forall in Hlive. rewrite (Hlive e Hin) in Hmiss.
  discriminate Hmiss.
Qed.

(** What a miss followed by a successful fetch does. *)
Lemma is_user_admin_refresh (chat : Chat) (user_id : UserId)
    (admins : list ChatMember) (w : World) :
  is_private chat = false ->
  admin_bypass user_id = false ->
  fst (TTLCache_getitem (clock w) (ADMIN_CACHE w) (chat_id chat)) = None ->
  upstream_getChatAdministrators (chat_id chat) = Ok admins ->
  is_user_admin chat user_id None w
  = (Ok (contains user_id (map member_user_id admins)),
     mkWorld
       (TTLCache_setitem ADMIN_CACHE_maxsize ADMIN_CACHE_ttl (clock w)
          (ADMIN_CACHE w) (chat_id chat) (map member_user_id admins))
       (clock w)
       (trace w ++ [EvCacheGet (chat_id chat);
                    EvGetChatAdministrators (chat_id chat);
                    EvCacheSet (chat_id chat) (map member_user_id admins)])).
Proof using Type.
  intros Hp Hb Hmiss Hup. unfold is_user_admin.
  rewrite (is_user_admin_guard_false _ _ Hp Hb).
  unfold ADMIN_CACHE_getitem, ADMIN_CACHE_setitem, getChatAdministrators.
  step_monad.
  pose proof (TTLCache_getitem_miss _ _ _ Hmiss) as Hsame.
  destruct (TTLCache_getitem (clock w) (ADMIN_CACHE w) (chat_id chat))
    as [r c'].
  simpl in Hmiss, Hsame. subst r c'. simpl.
  rewrite Hup. simpl. now rewrite <- !app_assoc.
Qed.

(** What a hit does: the answer comes from the stored list, and nothing is
    fetched. *)
Lemma is_user_admin_hit (chat : Chat) (user_id : UserId)
    (stored : list UserId) (w : World) :
  is_private chat = false ->
  admin_bypass user_id = false ->
  fst (TTLCache_getitem (clock w) (ADMIN_CACHE w) (chat_id chat))
  = Some stored ->
  is_user_admin chat user_id None w
  = (Ok (contains user_id stored),
     mkWorld
       (snd (TTLCache_getitem (clock w) (ADMIN_CACHE w) (chat_id chat)))
       (clock w)
       (trace w ++ [EvCacheGet (chat_id chat)])).
Proof using Type.
  intros Hp Hb Hhit. unfold is_user_admin.
  rewrite (is_user_admin_guard_false _ _ Hp Hb).
  unfold ADMIN_CACHE_getitem. step_monad.
  destruct (TTLCache_getitem (clock w) (ADMIN_CACHE w) (chat_id chat))
    as [r c'].
  simpl in Hhit. subst r. reflexivity.
Qed.

Lemma filter_out_absent (k : ChatId) (c : TTLCache) :
  existsb (entry_for k) c = false -> filter (entry_not_for k) c = c.
Proof using Type.
  induction c as [| e c IH]; simpl; [reflexivity |].
  intros H. apply orb_false_iff in H. destruct H as [He Hc].
  unfold entry_not_for at 1. rewrite He. simpl. now rewrite IH.
Qed.

Lemma existsb_false_In {A} (f : A -> bool) (l : list A) :
  existsb f l = false -> forall x, In x l -> f x = false.
Proof using Type.
  induction l as [| a l IH]; simpl; intros H x Hin; [contradiction |].
  apply orb_false_iff in H. destruct H as [Ha Hl].
  destruct Hin as [<- | Hin]; [exact Ha | now apply IH].
Qed.

Lemma In_skipn {A} (n : nat) (l : list A) (x : A) :
  In x (skipn n l) -> In x l.
Proof using Type.
  revert l. induction n as [| n IH]; intros [| a l]; simpl; auto.
Qed.

(** What a hit leaves behind: the entry it found, unchanged, moved to the
    most recently used end. *)
Lemma TTLCache_getitem_hit (now : Z) (c : TTLCache) (k : ChatId)
    (v : list UserId) :
  fst (TTLCache_getitem now c k) = Some v ->
  exists e,
    find (entry_for k) c = Some e
    /\ entry_live now e = true
    /\ entry_value e = v
    /\ snd (TTLCache_getitem now c k) = filter (entry_not_for k) c ++ [e].
Proof using Type.
  unfold TTLCache_getitem.
  destruct (find (entry_for k) c) as [e |]; [| discriminate].
  destruct (entry_live now e) eqn:Hl; simpl; [| discriminate].
  intros H. injection H as <-. now exists e.
Qed.

Lemma expires_by_getitem (k k2 : ChatId) (bound now : Z) (c : TTLCache) :
  expires_by k bound c ->
  expires_by k bound (snd (TTLCache_getitem now c k2)).
Proof using Type.
  unfold expires_by, TTLCache_getitem. intros Hc.
  destruct (find (entry_for k2) c) as [e |] eqn:Hf; [| exact Hc].
  destruct (entry_live now e); [| exact Hc].
  simpl. intros e' Hin. apply in_app_or in Hin. destruct Hin as [Hin | Hin].
  - apply filter_In in Hin. now apply Hc.
  - destruct Hin as [<- | []]. apply find_some in Hf. now apply Hc.
Qed.

Lemma expires_by_setitem_other (maxsize ttl : Z) (k k2 : ChatId)
    (bound now : Z) (c : TTLCache) (v : list UserId) :
  k2 <> k ->
  expires_by k bound c ->
  expires_by k bound (TTLCache_setitem maxsize ttl now c k2 v).
Proof using Type.
  unfold expires_by, TTLCache_setitem, TTLCache_evict. intros Hk Hc.
  destruct (existsb (entry_for k2) (filter (entry_live now) c));
    intros e Hin; apply in_app_or in Hin; destruct Hin as [Hin | Hin];
    try (destruct Hin as [<- | []]; simpl; intros Heq; now elim Hk).
  - apply filter_In in Hin. destruct Hin as [Hin _].
    apply filter_In in Hin. now apply Hc.
  - apply In_skipn in Hin. apply filter_In in Hin. now apply Hc.
Qed.

Lemma expires_by_setitem (maxsize ttl : Z) (k : ChatId) (now : Z)
    (c : TTLCache) (v : list UserId) :
  expires_by k (now + ttl) (TTLCache_setitem maxsize ttl now c k v).
Proof using Type.
  unfold expires_by, TTLCache_setitem, TTLCache_evict.
  destruct (existsb (entry_for k) (filter (entry_live now) c)) eqn:Hk;
    intros e Hin Hkey; apply in_app_or in Hin; destruct Hin as [Hin | Hin];
    try (destruct Hin as [<- | []]; simpl; lia).
  - apply filter_In in Hin. destruct Hin as [_ Hnot].
    unfold entry_not_for, entry_for in Hnot. rewrite Hkey, Z.eqb_refl in Hnot.
    discriminate Hnot.
  - apply In_skipn in Hin.
    pose proof (existsb_false_In _ _ Hk e Hin) as He.
    unfold entry_for in He. rewrite Hkey, Z.eqb_refl in He. discriminate He.
Qed.

(** Once the clock has reached the bound the lookup is a miss. *)
Lemma expires_by_miss (k : ChatId) (bound now : Z) (c : TTLCache) :
  expires_by k bound c ->
  bound <= now ->
  fst (TTLCache_getitem now c k) = None.
Proof using Type.
  unfold expires_by, TTLCache_getitem. intros Hc Hnow.
  destruct (find (entry_for k) c) as [e |] eqn:Hf; [| reflexivity].
  apply find_some in Hf. destruct Hf as [Hin Hkey].
  unfold entry_for in Hkey. apply Z.eqb_eq in Hkey.
  specialize (Hc e Hin Hkey).
  unfold entry_live. destruct (now <? entry_expires e) eqn:Hl;
    [| reflexivity].
  apply Z.ltb_lt in Hl. lia.
Qed.

(** A run of the resolver that does not refresh chat [k] (it is about
    another chat, or its lookup of [k] does not miss) never extends the
    life of what the cache holds for [k]. *)
Lemma is_user_admin_keeps_expiry (k : ChatId) (bound : Z) (chat : Chat)
    (user_id : UserId) (member : option ChatMember) (w : World) :
  expires_by k bound (ADMIN_CACHE w) ->
  chat_id chat <> k
  \/ fst (TTLCache_getitem (clock w) (ADMIN_CACHE w) k) <> None ->
  expires_by k bound (ADMIN_CACHE (snd (is_user_admin chat user_id member w))).
Proof using Type.
  intros Hc Hno. unfold is_user_admin.
  destruct (is_private chat || contains user_id DRAGONS
            || contains user_id DEV_USERS
            || contains user_id [777000; 1087968824]); [exact Hc |].
  destruct member as [m |]; [exact Hc |].
  unfold ADMIN_CACHE_getitem, ADMIN_CACHE_setitem, getChatAdministrators.
  step_monad.
  pose proof (expires_by_getitem k (chat_id chat) bound (clock w)
                (ADMIN_CACHE w) Hc) as Hget.
  pose proof (TTLCache_getitem_miss (clock w) (ADMIN_CACHE w) (chat_id chat))
    as Hsame.
  destruct (TTLCache_getitem (clock w) (ADMIN_CACHE w) (chat_id chat))
    as [[stored |] c'] eqn:Hlook; simpl in Hget, Hsame |- *; [exact Hget |].
  destruct (upstream_getChatAdministrators (chat_id chat)) as [l | e];
    simpl; [| exact Hget].
  apply expires_by_setitem_other; [| exact Hget].
  destruct Hno as [Hk | Hk]; [exact Hk |].
  intros Heq. apply Hk. rewrite <- Heq, Hlook. reflexivity.
Qed.

(** C5: the admin cache never holds more than 512 entries, and creating a
    513th chat's entry in a full cache of live entries evicts the least
    recently used one: the oldest entry when nothing was looked up, and the
    second oldest when the oldest was looked up in between, since a hit
    moves its entry, unchanged, to the most recently used end.  An entry
    not refreshed within 600 seconds is a miss at the next lookup: hits and
    runs about other chats never extend an entry's life.  On a miss
    [is_user_admin] fetches the chat's administrators, stores the whole id
    list under the chat id with a fresh expiry and answers from the fetched
    list; a lookup made before the 600 seconds are over is a hit answered
    from that list with no upstream call. *)
Theorem admin_cache_policy (chat : Chat) (user_id : UserId)
    (admins : list ChatMember) (w : World) :
  cache_bounded w ->
  is_private chat = false ->
  admin_bypass user_id = false ->
  fst (TTLCache_getitem (clock w) (ADMIN_CACHE w) (chat_id chat)) = None ->
  upstream_getChatAdministrators (chat_id chat) = Ok admins ->
  let cid := chat_id chat in
  let admin_list := map member_user_id admins in
  let fresh := mkEntry cid (clock w + 600) admin_list in
  let r := is_user_admin chat user_id None w in
  let w' := snd r in
  fst r = Ok (contains user_id admin_list)
  /\ trace w' = trace w ++ [EvCacheGet cid; EvGetChatAdministrators cid;
                            EvCacheSet cid admin_list]
  /\ find (entry_for cid) (ADMIN_CACHE w') = Some fresh
  /\ Z.of_nat (List.length (ADMIN_CACHE w')) <= 512
  /\ (forall chat2 user2 member2 w2,
        cache_bounded w2 ->
        cache_bounded (snd (is_user_admin chat2 user2 member2 w2)))
  /\ (forall lru rest,
        ADMIN_CACHE w = lru :: rest ->
        Z.of_nat (List.length (ADMIN_CACHE w)) = 512 ->
        forallb (entry_live (clock w)) (ADMIN_CACHE w) = true ->
        ADMIN_CACHE w' = rest ++ [fresh])
  /\ (forall now' user',
        now' < clock w + 600 ->
        admin_bypass user' = false ->
        let w1 := mkWorld (ADMIN_CACHE w') now' (trace w') in
        let r1 := is_user_admin chat user' None w1 in
        fst r1 = Ok (contains user' admin_list)
        /\ trace (snd r1) = trace w' ++ [EvCacheGet cid])
  /\ (forall now',
        clock w + 600 <= now' ->
        fst (TTLCache_getitem now' (ADMIN_CACHE w') cid) = None)
  /\ (forall chat2 user2 stored w2,
        is_private chat2 = false ->
        admin_bypass user2 = false ->
        fst (TTLCache_getitem (clock w2) (ADMIN_CACHE w2) (chat_id chat2))
        = Some stored ->
        exists e,
          find (entry_for (chat_id chat2)) (ADMIN_CACHE w2) = Some e
          /\ entry_value e = stored
          /\ is_user_admin chat2 user2 None w2
             = (Ok (contains user2 stored),
                mkWorld
                  (filter (entry_not_for (chat_id chat2)) (ADMIN_CACHE w2)
                   ++ [e])
                  (clock w2)
                  (trace w2 ++ [EvCacheGet (chat_id chat2)])))
  /\ (forall first second rest chatA userA,
        ADMIN_CACHE w = first :: second :: rest ->
        Z.of_nat (List.length (ADMIN_CACHE w)) = 512 ->
        forallb (entry_live (clock w)) (ADMIN_CACHE w) = true ->
        entry_key first = chat_id chatA ->
        existsb (entry_for (chat_id chatA)) (second :: rest) = false ->
        is_private chatA = false ->
        admin_bypass userA = false ->
        let rA := is_user_admin chatA userA None w in
        fst rA = Ok (contains userA (entry_value first))
        /\ ADMIN_CACHE (snd rA) = second :: rest ++ [first]
        /\ ADMIN_CACHE (snd (is_user_admin chat user_id None (snd rA)))
           = rest ++ [first; fresh])
  /\ (forall now1 user1 now2,
        now1 < clock w + 600 ->
        admin_bypass user1 = false ->
        clock w + 600 <= now2 ->
        let w1 := mkWorld (ADMIN_CACHE w') now1 (trace w') in
        let r1 := is_user_admin chat user1 None w1 in
        ADMIN_CACHE (snd r1)
        = filter (entry_not_for cid) (ADMIN_CACHE w') ++ [fresh]
        /\ fst (TTLCache_getitem now2 (ADMIN_CACHE (snd r1)) cid) = None)
  /\ expires_by cid (clock w + 600) (ADMIN_CACHE w')
  /\ (forall k bound chat2 user2 member2 w2,
        expires_by k bound (ADMIN_CACHE w2) ->
        chat_id chat2 <> k
        \/ fst (TTLCache_getitem (clock w2) (ADMIN_CACHE w2) k) <> None ->
        expires_by k bound
          (ADMIN_CACHE (snd (is_user_admin chat2 user2 member2 w2))))
  /\ (forall k bound now c,
        expires_by k bound c ->
        bound <= now ->
        fst (TTLCache_getitem now c k) = None).
Proof using Type.
  intros Hbound Hp Hb Hmiss Hup cid admin_list fresh r w'.
  pose proof (is_user_admin_refresh chat user_id admins w Hp Hb Hmiss Hup)
    as Hrun.
  fold cid admin_list in Hrun.
  assert (Hcache : ADMIN_CACHE w'
                   = TTLCache_setitem ADMIN_CACHE_maxsize ADMIN_CACHE_ttl
                       (clock w) (ADMIN_CACHE w) cid admin_list)
    by (unfold w', r; rewrite Hrun; reflexivity).
  assert (Htrace : trace w' = trace w ++ [EvCacheGet cid;
                                          EvGetChatAdministrators cid;
                                          EvCacheSet cid admin_list])
    by (unfold w', r; rewrite Hrun; reflexivity).
  assert (Hfind : find (entry_for cid) (ADMIN_CACHE w') = Some fresh)
    by (rewrite Hcache; apply TTLCache_setitem_find).
  assert (Hhitrun : forall chat2 user2 stored w2,
             is_private chat2 = false ->
             admin_bypass user2 = false ->
             fst (TTLCache_getitem (clock w2) (ADMIN_CACHE w2) (chat_id chat2))
             = Some stored ->
             exists e,
               find (entry_for (chat_id chat2)) (ADMIN_CACHE w2) = Some e
               /\ entry_value e = stored
               /\ is_user_admin chat2 user2 None w2
                  = (Ok (contains user2 stored),
                     mkWorld
                       (filter (entry_not_for (chat_id chat2)) (ADMIN_CACHE w2)
                        ++ [e])
                       (clock w2)
                       (trace w2 ++ [EvCacheGet (chat_id chat2)]))).
  { intros chat2 user2 stored w2 Hp2 Hb2 Hhit.
    destruct (TTLCache_getitem_hit _ _ _ _ Hhit) as (e & He & _ & Hv & Hc).
    exists e. split; [exact He |]. split; [exact Hv |].
    rewrite (is_user_admin_hit chat2 user2 stored w2 Hp2 Hb2 Hhit).
    now rewrite Hc. }
  assert (Hfreshhit : forall now1 user1,
             now1 < clock w + 600 ->
             admin_bypass user1 = false ->
             is_user_admin chat user1 None
               (mkWorld (ADMIN_CACHE w') now1 (trace w'))
             = (Ok (contains user1 admin_list),
                mkWorld (filter (entry_not_for cid) (ADMIN_CACHE w') ++ [fresh])
                  now1 (trace w' ++ [EvCacheGet cid]))).
  { intros now1 user1 Hfresh Hb1.
    assert (Hhit : fst (TTLCache_getitem now1 (ADMIN_CACHE w') cid)
                   = Some admin_list)
      by (rewrite Hcache; now apply TTLCache_hit_after_setitem).
    destruct (Hhitrun chat user1 admin_list
                (mkWorld (ADMIN_CACHE w') now1 (trace w')) Hp Hb1 Hhit)
      as (e & He & _ & Hr).
    simpl in He, Hr. fold cid in He, Hr.
    rewrite Hfind in He. injection He as <-. exact Hr. }
  split; [unfold r; rewrite Hrun; reflexivity |].
  split; [exact Htrace |].
  split; [exact Hfind |].
  split; [apply (is_user_admin_cache_bounded chat user_id None w Hbound) |].
  split; [intros; now apply is_user_admin_cache_bounded |].
  split; [| split; [| split; [| split; [| split; [| split; [| split;
    [| split]]]]]]].
  - intros lru rest Hc Hfull Hlive. rewrite Hcache.
    pose proof (miss_all_live_no_entry _ _ _ Hmiss Hlive) as Hnew.
    rewrite Hc in *.
    now apply TTLCache_setitem_evicts_lru.
  - intros now' user' Hfresh Hb' w1 r1.
    unfold r1, w1. rewrite (Hfreshhit now' user' Hfresh Hb').
    split; reflexivity.
  - intros now' Hold. rewrite Hcache.
    now apply TTLCache_miss_after_ttl.
  - exact Hhitrun.
  - intros first second rest chatA userA Hc Hfull Hlive Hkey Hrest HpA HbA rA.
    pose proof (miss_all_live_no_entry _ _ _ Hmiss Hlive) as Hnew.
    rewrite Hc in Hnew, Hfull, Hlive.
    assert (HforA : entry_for (chat_id chatA) first = true)
      by (unfold entry_for; rewrite Hkey; apply Z.eqb_refl).
    assert (HliveA : entry_live (clock w) first = true)
      by (simpl in Hlive; apply andb_true_iff in Hlive;
          destruct Hlive as [Hl _]; exact Hl).
    assert (HhitA : fst (TTLCache_getitem (clock w) (ADMIN_CACHE w)
                           (chat_id chatA))
                    = Some (entry_value first)).
    { unfold TTLCache_getitem. rewrite Hc. simpl.
      now rewrite HforA, HliveA. }
    destruct (Hhitrun chatA userA (entry_value first) w HpA HbA HhitA)
      as (e & He & _ & HrunA).
    rewrite Hc in He. simpl in He. rewrite HforA in He. injection He as <-.
    assert (HcacheA : ADMIN_CACHE (snd rA) = second :: rest ++ [first]).
    { unfold rA. rewrite HrunA. simpl. rewrite Hc.
      change (first :: second :: rest) with ([first] ++ second :: rest).
      rewrite filter_app. simpl filter at 1.
      unfold entry_not_for at 1. rewrite HforA. simpl negb. cbv iota.
      rewrite (filter_out_absent _ _ Hrest). reflexivity. }
    split; [unfold rA; rewrite HrunA; reflexivity |].
    split; [exact HcacheA |].
    assert (HclockA : clock (snd rA) = clock w)
      by (unfold rA; rewrite HrunA; reflexivity).
    change (first :: second :: rest) with ([first] ++ second :: rest) in Hnew.
    rewrite existsb_app in Hnew. apply orb_false_iff in Hnew.
    destruct Hnew as [Hn1 Hn2]. simpl in Hn1. rewrite orb_false_r in Hn1.
    assert (HnewA : existsb (entry_for cid) (second :: rest ++ [first])
                    = false).
    { unfold cid.
      change (second :: rest ++ [first]) with ((second :: rest) ++ [first]).
      rewrite existsb_app, Hn2. simpl. now rewrite Hn1. }
    assert (HmissA : fst (TTLCache_getitem (clock (snd rA))
                            (ADMIN_CACHE (snd rA)) (chat_id chat)) = None).
    { unfold TTLCache_getitem. rewrite HcacheA. fold cid.
      rewrite find_existsb in HnewA.
      destruct (find (entry_for cid) (second :: rest ++ [first]));
        [discriminate HnewA | reflexivity]. }
    rewrite (is_user_admin_refresh chat user_id admins (snd rA) Hp Hb
               HmissA Hup).
    simpl. rewrite HcacheA, HclockA. fold cid admin_list.
    rewrite (TTLCache_setitem_evicts_lru ADMIN_CACHE_maxsize ADMIN_CACHE_ttl
               (clock w) second (rest ++ [first]) cid admin_list).
    + now rewrite <- app_assoc.
    + simpl List.length in Hfull |- *. rewrite length_app. simpl.
      unfold ADMIN_CACHE_maxsize. lia.
    + simpl in Hlive |- *.
      apply andb_true_iff in Hlive. destruct Hlive as [_ Hlive].
      apply andb_true_iff in Hlive. destruct Hlive as [Hl2 Hlr].
      rewrite Hl2, forallb_app, Hlr. simpl. now rewrite HliveA.
    + exact HnewA.
  - intros now1 user1 now2 Hfresh Hb1 Hold w1 r1.
    unfold r1, w1. rewrite (Hfreshhit now1 user1 Hfresh Hb1). simpl.
    split; [reflexivity |].
    apply expires_by_miss with (bound := clock w + 600); [| exact Hold].
    intros e Hin Hkey. apply in_app_or in Hin. destruct Hin as [Hin | Hin].
    + apply filter_In in Hin. destruct Hin as [_ Hnot].
      unfold entry_not_for, entry_for in Hnot.
      rewrite Hkey, Z.eqb_refl in Hnot. discriminate Hnot.
    + destruct Hin as [<- | []]. simpl. lia.
  - rewrite Hcache. apply expires_by_setitem.
  - intros k bound chat2 user2 member2 w2.
    apply is_user_admin_keeps_expiry.
  - intros k bound now c. apply expires_by_miss.
Qed.

(** ** Ban protection *)

Lemma ban_guard_spec (chat : Chat) (user_id : UserId) :
  is_private chat
  || contains user_id DRAGONS
  || contains user_id DEV_USERS
  || contains user_id WOLVES
  || contains user_id TIGERS
  || contains user_id [777000; 1087968824] = true
  <-> (is_private chat = true \/ In user_id DEV_USERS \/ In user_id DRAGONS
       \/ In user_id WOLVES \/ In user_id TIGERS
       \/ user_id = 777000 \/ user_id = 1087968824).
Proof using Type.
  clear bot_id upstream_get_member upstream_getChatAdministrators.
  rewrite !orb_true_iff, !contains_In. simpl.
  intuition auto.
Qed.

(** C7, amended: [is_user_ban_protected] answers [True] at once in a
    private chat, for a user of the developer, sudo, [WOLVES] or [TIGERS]
    tier, and for the two platform pseudo-users 777000 and 1087968824; for
    every other user it answers whether the status of the supplied member
    record, or of one fetched with [get_member] when none is supplied, is
    administrator or owner.  It never reads or writes the admin cache. *)
Theorem is_user_ban_protected_amended (chat : Chat) (user_id : UserId)
    (member : option ChatMember) (w : World) :
  let r := is_user_ban_protected chat user_id member w in
  let exempt :=
    is_private chat = true \/ In user_id DEV_USERS \/ In user_id DRAGONS
    \/ In user_id WOLVES \/ In user_id TIGERS
    \/ user_id = 777000 \/ user_id = 1087968824 in
  (exempt -> r = (Ok true, w))
  /\ (~ exempt -> forall m, member = Some m ->
      exists b : bool,
        r = (Ok b, w)
        /\ (b = true <-> status m = ADMINISTRATOR \/ status m = OWNER))
  /\ (~ exempt -> member = None ->
      forall m, upstream_get_member (chat_id chat) user_id = Ok m ->
      exists b : bool,
        r = (Ok b,
             mkWorld (ADMIN_CACHE w) (clock w)
               (trace w ++ [EvGetMember (chat_id chat) user_id]))
        /\ (b = true <-> status m = ADMINISTRATOR \/ status m = OWNER))
  /\ ADMIN_CACHE (snd r) = ADMIN_CACHE w
  /\ (exists evs,
        trace (snd r) = trace w ++ evs
        /\ existsb is_cache_event evs = false).
Proof using Type.
  intros r exempt.
  pose proof (ban_guard_spec chat user_id) as Hg. fold exempt in Hg.
  unfold r, is_user_ban_protected, Chat_get_member.
  destruct (is_private chat || contains user_id DRAGONS
            || contains user_id DEV_USERS || contains user_id WOLVES
            || contains user_id TIGERS
            || contains user_id [777000; 1087968824]) eqn:Hc.
  - assert (He : exempt) by (now apply Hg).
    repeat split; try (intros; reflexivity); try (intros H; now elim H).
    exists []. now rewrite app_nil_r.
  - assert (Hne : ~ exempt) by (intros He; apply Hg in He; discriminate He).
    split; [intros He; now elim Hne |].
    split; [| split; [| split]].
    + intros _ m ->. exists (status_in (status m) [ADMINISTRATOR; OWNER]).
      split; [reflexivity | apply status_in_admin_owner].
    + intros _ -> m Hup.
      exists (status_in (status m) [ADMINISTRATOR; OWNER]).
      split; [| apply status_in_admin_owner].
      step_monad. rewrite Hup. reflexivity.
    + destruct member as [m |]; step_monad; [reflexivity |].
      destruct (upstream_get_member (chat_id chat) user_id); reflexivity.
    + destruct member as [m |]; step_monad.
      * exists []. now rewrite app_nil_r.
      * exists [EvGetMember (chat_id chat) user_id].
        destruct (upstream_get_member (chat_id chat) user_id);
          split; reflexivity.
Qed.

(** ** The [check_admin] guard *)

(** In a chat that is not private, the guard built with no capability name
    and no tier flag never reaches the wrapped action: its last branch
    tests the bot and the user and then runs off the end of the function. *)
Lemma check_admin_plain_never_invokes (is_bot is_user is_both : bool)
    (update : Update) (w : World) :
  is_private (effective_chat update) = false ->
  let r := check_admin None is_bot is_user is_both false false false update w in
  fst r <> Ok RetFunc
  /\ existsb is_EvFunc (trace (snd r)) = existsb is_EvFunc (trace w).
Proof using Type.
  intros Hp. unfold check_admin, Chat_get_member. rewrite Hp.
  destruct is_bot, is_user, is_both, (effective_user update) as [u |];
    step_monad;
    repeat match goal with
      | |- context [match upstream_get_member ?c ?x with _ => _ end] =>
          destruct (upstream_get_member c x) as [[] |]; simpl
      | |- context [if contains ?x ?l then _ else _] =>
          destruct (contains x l); simpl
      end;
    rewrite ?existsb_app; simpl; rewrite ?orb_false_r;
    split; solve [discriminate | reflexivity].
Qed.

(** With [only_sudo] alone the guard turns every user away: the candidate
    is compared with the two tier collections themselves. *)
Lemma check_admin_only_sudo_always_denies (permission : option Permission)
    (update : Update) (u : UserId) (w : World) :
  is_private (effective_chat update) = false ->
  effective_user update = Some u ->
  check_admin permission false false false false true false update w
  = (Ok (RetMessage sudo_only_text),
     mkWorld (ADMIN_CACHE w) (clock w) (trace w ++ [EvReply sudo_only_text])).
Proof using Type.
  intros Hp Hu. unfold check_admin. rewrite Hp, Hu.
  step_monad. reflexivity.
Qed.

(** ** What a guard does to the world *)

Lemma extend_nil (w : World) : extend w [] = w.
Proof using Type.
  destruct w. unfold extend. simpl. now rewrite app_nil_r.
Qed.

Lemma extend_extend (w : World) (evs1 evs2 : list Event) :
  extend (extend w evs1) evs2 = extend w (evs1 ++ evs2).
Proof using Type.
  unfold extend. simpl. now rewrite app_assoc.
Qed.

Lemma only_events_ret {A} (P : Event -> bool) (a : A) : only_events P (ret a).
Proof using Type.
  intros w. exists []. split; [symmetry; apply extend_nil | reflexivity].
Qed.

Lemma only_events_raise {A} (P : Event -> bool) (e : Exn) :
  only_events P (@raise A e).
Proof using Type.
  intros w. exists []. split; [symmetry; apply extend_nil | reflexivity].
Qed.

Lemma only_events_emit (P : Event -> bool) (e : Event) :
  P e = true -> only_events P (emit e).
Proof using Type.
  intros He w. exists [e]. split; [reflexivity |]. simpl. now rewrite He.
Qed.

Lemma only_events_lift {A} (P : Event -> bool) (r : Outcome A) :
  only_events P (lift r).
Proof using Type.
  destruct r; [apply only_events_ret | apply only_events_raise].
Qed.

Lemma only_events_bind {A B} (P : Event -> bool) (m : M A) (k : A -> M B) :
  only_events P m ->
  (forall a, only_events P (k a)) ->
  only_events P (bind m k).
Proof using Type.
  intros Hm Hk w. unfold bind.
  destruct (Hm w) as (evs1 & Hw1 & Hp1).
  destruct (m w) as [[a | e] w1]; simpl in Hw1; subst w1.
  - destruct (Hk a (extend w evs1)) as (evs2 & Hw2 & Hp2).
    exists (evs1 ++ evs2). rewrite Hw2, extend_extend, forallb_app, Hp1, Hp2.
    split; reflexivity.
  - exists evs1. split; [reflexivity | exact Hp1].
Qed.

Lemma only_events_try_pass (P : Event -> bool) (m : M unit) :
  only_events P m -> only_events P (try_pass m).
Proof using Type.
  intros Hm w. unfold try_pass.
  destruct (Hm w) as (evs & Hw & Hp).
  destruct (m w) as [r w1]. simpl in *. now exists evs.
Qed.

Ltac open_guard :=
  cbv beta zeta delta
    [body then_ Return Do pass func reply_text user_id_of status_of
     Chat_get_member message_delete owner_or_dev user_flag_or_dragon].

Ltac only_events_tac :=
  repeat first
    [ apply only_events_ret
    | apply only_events_raise
    | apply only_events_lift
    | apply only_events_emit; reflexivity
    | apply only_events_try_pass
    | apply only_events_bind; [| intros ?; cbv beta]
    | match goal with
      | |- only_events _ (if ?b then _ else _) => destruct b
      | |- only_events _ (match ?x with _ => _ end) => destruct x
      end ].

(** X1: whatever its arguments and whatever the platform answers,
    [check_admin] leaves the admin cache and the clock as they are, and
    all it does is fetch member records, reply and call the wrapped
    action: it never asks for the administrator list, never reads or
    writes the cache and never deletes a message. *)
Theorem check_admin_touches_member_records_only
    (permission : option Permission)
    (is_bot is_user is_both only_owner only_sudo only_dev : bool)
    (update : Update) :
  only_events member_guard_event
    (check_admin permission is_bot is_user is_both only_owner only_sudo
       only_dev update).
Proof using Type.
  unfold check_admin. open_guard. only_events_tac.
Qed.

(** X2: the four tier guards decide on the tier lists alone: whatever the
    update, [dev_plus], [sudo_plus], [support_plus] and [whitelist_plus]
    fetch no member record and no administrator list and leave the admin
    cache alone; they only reply, delete the command or call the wrapped
    action. *)
Theorem tier_guards_fetch_nothing (update : Update) :
  only_events tier_guard_event (dev_plus update)
  /\ only_events tier_guard_event (sudo_plus update)
  /\ only_events tier_guard_event (support_plus update)
  /\ only_events tier_guard_event (whitelist_plus update).
Proof using Type.
  repeat split.
  - unfold dev_plus. open_guard. only_events_tac.
  - unfold sudo_plus. open_guard. only_events_tac.
  - unfold support_plus. open_guard. only_events_tac.
  - unfold whitelist_plus. open_guard. only_events_tac.
Qed.

(** X3: the five guards on the bot's own standing ([bot_admin],
    [bot_can_delete], [can_pin], [can_promote], [can_restrict]) leave the
    admin cache alone whatever the platform answers: they fetch member
    records, reply and call the wrapped action, nothing else. *)
Theorem bot_guards_touch_member_records_only (update : Update) :
  only_events member_guard_event (bot_admin update)
  /\ only_events member_guard_event (bot_can_delete update)
  /\ only_events member_guard_event (can_pin update)
  /\ only_events member_guard_event (can_promote update)
  /\ only_events member_guard_event (can_restrict update).
Proof using Type.
  repeat split.
  - unfold bot_admin, is_bot_admin. open_guard. only_events_tac.
  - unfold bot_can_delete, can_delete. open_guard. only_events_tac.
  - unfold can_pin. open_guard. only_events_tac.
  - unfold can_promote. open_guard. only_events_tac.
  - unfold can_restrict. open_guard. only_events_tac.
Qed.

(** ** Decisions of [check_admin] *)

Lemma contains_not_In (x : Z) (l : list Z) : contains x l = false <-> ~ In x l.
Proof using Type.
  rewrite <- contains_In. destruct (contains x l); split; intros H;
    try reflexivity; try discriminate; try (intros H'; discriminate H').
  now elim H.
Qed.

Lemma admin_flag_holds (m : ChatMember) (p : Permission) :
  admin_flag (Some m) p = true <-> holds_right m p.
Proof using Type.
  unfold holds_right. split.
  - destruct m as [x | x r | x | x | x | x]; simpl; intros H;
      try discriminate H.
    now exists x, r.
  - intros (x & r & -> & H). exact H.
Qed.

Lemma admin_flag_lacks (m : ChatMember) (p : Permission) :
  admin_flag (Some m) p = false <-> ~ holds_right m p.
Proof using Type.
  rewrite <- admin_flag_holds.
  destruct (admin_flag (Some m) p); split; intros H;
    try reflexivity; try discriminate; try (intros H'; discriminate H').
  now elim H.
Qed.

Ltac norm_trace :=
  unfold extend; simpl; rewrite <- ?app_assoc; simpl.

(** X4: the tier predicates nest.  Whoever [is_sudo_plus] accepts,
    [is_support_plus] accepts; whoever [is_support_plus] accepts,
    [is_whitelist_plus] accepts; a developer is accepted by all three; and
    [is_whitelist_plus] accepts exactly the ids found in one of the five
    lists. *)
Theorem tier_predicates_nest (chat : Chat) (user_id : UserId) :
  (In user_id DEV_USERS -> is_sudo_plus chat user_id = true)
  /\ (is_sudo_plus chat user_id = true -> is_support_plus chat user_id = true)
  /\ (is_support_plus chat user_id = true ->
      is_whitelist_plus chat user_id = true)
  /\ (is_whitelist_plus chat user_id = true <->
      In user_id WOLVES \/ In user_id TIGERS \/ In user_id DEMONS
      \/ In user_id DRAGONS \/ In user_id DEV_USERS).
Proof using Type.
  unfold is_sudo_plus, is_support_plus, is_whitelist_plus. simpl.
  rewrite <- !contains_In.
  destruct (contains user_id WOLVES), (contains user_id TIGERS),
    (contains user_id DEMONS), (contains user_id DRAGONS),
    (contains user_id DEV_USERS); simpl;
    repeat split; intros; try reflexivity; try discriminate; auto;
    repeat match goal with
      | H : _ \/ _ |- _ => destruct H
      end; discriminate.
Qed.

(** X5: in a private chat [check_admin] calls the wrapped action at once,
    whatever capability and flags it was built with ([only_dev] and
    [only_owner] included) and whoever the sender is: no record is fetched
    and nothing is replied. *)
Theorem check_admin_private_chat_bypass (permission : option Permission)
    (is_bot is_user is_both only_owner only_sudo only_dev : bool)
    (update : Update) (w : World) :
  is_private (effective_chat update) = true ->
  check_admin permission is_bot is_user is_both only_owner only_sudo only_dev
    update w
  = (Ok RetFunc, extend w [EvFunc]).
Proof using Type.
  intros Hp. unfold check_admin. rewrite Hp. reflexivity.
Qed.

(** X6: [check_admin(only_owner=True, is_user=True)] outside a private
    chat, with the sender's record fetched: the wrapped action is called
    when the record is the owner's or the sender is a developer, and
    otherwise the owner-only reply is sent.  The rule is final either way:
    the capability name and the [only_sudo] and [only_dev] flags make no
    difference. *)
Theorem check_admin_only_owner_decision (permission : option Permission)
    (only_sudo only_dev : bool) (update : Update) (u : UserId)
    (m : ChatMember) (w : World) :
  is_private (effective_chat update) = false ->
  effective_user update = Some u ->
  upstream_get_member (chat_id (effective_chat update)) u = Ok m ->
  let r := check_admin permission false true false true only_sudo only_dev
             update w in
  let fetch := EvGetMember (chat_id (effective_chat update)) u in
  let text := "Only chat owner can perform this action." in
  (status m = OWNER \/ In u DEV_USERS ->
   r = (Ok RetFunc, extend w [fetch; EvFunc]))
  /\ (status m <> OWNER -> ~ In u DEV_USERS ->
      r = (Ok (RetMessage text), extend w [fetch; EvReply text])).
Proof using Type.
  intros Hp Hu Hup r fetch text. subst r fetch text.
  unfold check_admin, owner_or_dev, Chat_get_member. rewrite Hp, Hu.
  step_monad. rewrite Hup. simpl. split.
  - intros [Ho | Hd].
    + destruct m; try discriminate Ho. simpl. now norm_trace.
    + apply contains_In in Hd.
      destruct m; simpl; rewrite ?Hd; now norm_trace.
  - intros Ho Hd. apply contains_not_In in Hd.
    destruct m; simpl; rewrite ?Hd;
      solve [now norm_trace | now elim Ho].
Qed.

(** X7: [check_admin(only_owner=True)] built without [is_user] and
    [is_bot] never fetches the sender's record, so outside a private chat
    it lets developers through and nobody else: every other sender, the
    owner of the chat included, gets the owner-only reply. *)
Theorem check_admin_only_owner_without_record
    (permission : option Permission) (only_sudo only_dev : bool)
    (update : Update) (u : UserId) (w : World) :
  is_private (effective_chat update) = false ->
  effective_user update = Some u ->
  let r := check_admin permission false false false true only_sudo only_dev
             update w in
  let text := "Only chat owner can perform this action." in
  (In u DEV_USERS -> r = (Ok RetFunc, extend w [EvFunc]))
  /\ (~ In u DEV_USERS ->
      r = (Ok (RetMessage text), extend w [EvReply text])).
Proof using Type.
  intros Hp Hu r text. subst r text.
  unfold check_admin, owner_or_dev. rewrite Hp, Hu.
  step_monad. split; intros Hd.
  - apply contains_In in Hd. rewrite Hd. reflexivity.
  - apply contains_not_In in Hd. rewrite Hd. reflexivity.
Qed.

(** X8: [check_admin(permission=p, is_bot=True)] outside a private chat,
    with both records fetched: the wrapped action is called exactly when
    the bot's record is an administrator's with [p] set, and otherwise the
    bot-side reply is sent.  The sender's standing and the [is_user] and
    [is_both] flags make no difference. *)
Theorem check_admin_bot_capability_decision (p : Permission)
    (is_user is_both : bool) (update : Update) (u : UserId)
    (bot_member user_member : ChatMember) (w : World) :
  is_private (effective_chat update) = false ->
  effective_user update = Some u ->
  upstream_get_member (chat_id (effective_chat update)) bot_id
  = Ok bot_member ->
  upstream_get_member (chat_id (effective_chat update)) u = Ok user_member ->
  let cid := chat_id (effective_chat update) in
  let r := check_admin (Some p) true is_user is_both false false false
             update w in
  (holds_right bot_member p ->
   r = (Ok RetFunc,
        extend w [EvGetMember cid bot_id; EvGetMember cid u; EvFunc]))
  /\ (~ holds_right bot_member p ->
      r = (Ok (RetMessage (bot_lacks_text p)),
           extend w [EvGetMember cid bot_id; EvGetMember cid u;
                     EvReply (bot_lacks_text p)])).
Proof using Type.
  intros Hp Hu Hbot Huser cid r. subst cid r.
  unfold check_admin, Chat_get_member. rewrite Hp, Hu.
  rewrite orb_true_r. simpl orb.
  step_monad. rewrite Hbot. simpl. rewrite Huser. simpl.
  split; intros H.
  - destruct H as (x & rights & -> & Hf). simpl. rewrite Hf. now norm_trace.
  - apply admin_flag_lacks in H.
    destruct bot_member; simpl in H |- *; rewrite ?H; now norm_trace.
Qed.

(** X9: [check_admin(permission=p, is_both=True)] outside a private chat
    fetches the bot's record only.  If the bot lacks [p] the bot-side
    reply is sent whoever the sender is.  If the bot has it, the sender's
    standing in the chat is never looked at: a sender in the developer or
    sudo tier gets the wrapped action called, and every other sender (the
    chat's owner and its administrators included) gets the user-side
    reply. *)
Theorem check_admin_both_capability_decision (p : Permission)
    (update : Update) (u : UserId) (bot_member : ChatMember) (w : World) :
  is_private (effective_chat update) = false ->
  effective_user update = Some u ->
  upstream_get_member (chat_id (effective_chat update)) bot_id
  = Ok bot_member ->
  let fetch := EvGetMember (chat_id (effective_chat update)) bot_id in
  let r := check_admin (Some p) false false true false false false
             update w in
  (~ holds_right bot_member p ->
   r = (Ok (RetMessage (bot_lacks_text p)),
        extend w [fetch; EvReply (bot_lacks_text p)]))
  /\ (holds_right bot_member p ->
      In u DEV_USERS \/ In u DRAGONS ->
      r = (Ok RetFunc, extend w [fetch; EvFunc]))
  /\ (holds_right bot_member p ->
      ~ In u DEV_USERS -> ~ In u DRAGONS ->
      r = (Ok (RetMessage (user_lacks_text p)),
           extend w [fetch; EvReply (user_lacks_text p)])).
Proof using Type.
  intros Hp Hu Hbot fetch r. subst fetch r.
  unfold check_admin, owner_or_dev, user_flag_or_dragon, Chat_get_member.
  rewrite Hp, Hu. step_monad. rewrite Hbot. simpl.
  split; [| split].
  - intros H. apply admin_flag_lacks in H.
    destruct bot_member; simpl in H |- *; rewrite ?H; now norm_trace.
  - intros (x & rights & -> & Hf) Ht. simpl. rewrite Hf. simpl.
    destruct (contains u DEV_USERS) eqn:Hd; simpl; [now norm_trace |].
    destruct Ht as [Ht | Ht]; apply contains_In in Ht;
      [rewrite Ht in Hd; discriminate Hd |].
    rewrite Ht. now norm_trace.
  - intros (x & rights & -> & Hf) Hd Hs. simpl. rewrite Hf. simpl.
    apply contains_not_In in Hd. apply contains_not_In in Hs.
    rewrite Hd. simpl. rewrite Hs. now norm_trace.
Qed.

(** ** Guards on the bot's own standing *)

(** X10: [bot_admin] calls the wrapped action at once in a private chat,
    without fetching anything.  Elsewhere it fetches the bot's record and
    calls the wrapped action when its status is administrator or owner;
    for any other status it replies that the bot is not admin and returns
    [None]. *)
Theorem bot_admin_decision (update : Update) (m : ChatMember) (w : World) :
  let chat := effective_chat update in
  let fetch := EvGetMember (chat_id chat) bot_id in
  (is_private chat = true ->
   bot_admin update w = (Ok RetFunc, extend w [EvFunc]))
  /\ (is_private chat = false ->
      upstream_get_member (chat_id chat) bot_id = Ok m ->
      status m = ADMINISTRATOR \/ status m = OWNER ->
      bot_admin update w = (Ok RetFunc, extend w [fetch; EvFunc]))
  /\ (is_private chat = false ->
      upstream_get_member (chat_id chat) bot_id = Ok m ->
      status m <> ADMINISTRATOR -> status m <> OWNER ->
      bot_admin update w
      = (Ok RetNone, extend w [fetch; EvReply (not_admin_text update)])).
Proof using Type.
  intros chat fetch. subst chat fetch.
  unfold bot_admin, is_bot_admin, Chat_get_member.
  split; [| split].
  - intros ->. reflexivity.
  - intros -> Hup Hs. step_monad. rewrite Hup.
    destruct m; simpl in Hs |- *; try (now norm_trace);
      destruct Hs as [Hs | Hs]; discriminate Hs.
  - intros -> Hup Ha Ho. step_monad. rewrite Hup.
    destruct m; simpl in Ha, Ho |- *; try (now norm_trace);
      solve [now elim Ha | now elim Ho].
Qed.

(** X11: [bot_can_delete] has no private-chat shortcut and is never
    silent: with the bot's record fetched, it calls the wrapped action
    when the record is an administrator's with [can_delete_messages] set,
    and in every other case (an owner's record included) it replies that
    it cannot delete and returns [None]. *)
Theorem bot_can_delete_decision (update : Update) (m : ChatMember)
    (w : World) :
  upstream_get_member (chat_id (effective_chat update)) bot_id = Ok m ->
  let fetch := EvGetMember (chat_id (effective_chat update)) bot_id in
  (holds_right m P_can_delete_messages ->
   bot_can_delete update w = (Ok RetFunc, extend w [fetch; EvFunc]))
  /\ (~ holds_right m P_can_delete_messages ->
      bot_can_delete update w
      = (Ok RetNone, extend w [fetch; EvReply (cant_delete_text update)])).
Proof using Type.
  intros Hup fetch. subst fetch.
  unfold bot_can_delete, can_delete, Chat_get_member.
  step_monad. rewrite Hup. split.
  - intros (x & rights & -> & Hf). simpl in Hf |- *. rewrite Hf.
    now norm_trace.
  - intros H. apply admin_flag_lacks in H.
    destruct m; simpl in H |- *; rewrite ?H; now norm_trace.
Qed.

(** X12: [can_pin], [can_promote] and [can_restrict] share one shape.
    With the bot's record fetched, each calls the wrapped action when the
    record is an administrator's with the guard's own flag set, replies
    with its own text and returns [None] when the record is an
    administrator's without the flag, and does nothing at all (no reply,
    [None]) when the bot is not an administrator. *)
Theorem bot_right_guards_decision (update : Update) (m : ChatMember)
    (w : World) :
  upstream_get_member (chat_id (effective_chat update)) bot_id = Ok m ->
  let fetch := EvGetMember (chat_id (effective_chat update)) bot_id in
  let decides (guard : Update -> M Returned) (p : Permission)
      (text : string) :=
    (holds_right m p ->
     guard update w = (Ok RetFunc, extend w [fetch; EvFunc]))
    /\ (status m = ADMINISTRATOR -> ~ holds_right m p ->
        guard update w = (Ok RetNone, extend w [fetch; EvReply text]))
    /\ (status m <> ADMINISTRATOR ->
        guard update w = (Ok RetNone, extend w [fetch])) in
  decides can_pin P_can_pin_messages (cant_pin_text update)
  /\ decides can_promote P_can_promote_members (cant_promote_text update)
  /\ decides can_restrict P_can_restrict_members (cant_restrict_text update).
Proof using Type.
  intros Hup fetch decides. subst fetch decides. cbv beta.
  unfold can_pin, can_promote, can_restrict, Chat_get_member.
  step_monad. rewrite Hup. simpl.
  repeat split;
    try (intros (x & rights & -> & Hf); simpl in Hf |- *; rewrite Hf;
         now norm_trace);
    try (intros Ha H; apply admin_flag_lacks in H;
         destruct m; simpl in Ha, H |- *; try discriminate Ha;
         rewrite H; now norm_trace);
    try (intros Ha; destruct m; simpl in Ha |- *;
         solve [now norm_trace | now elim Ha]).
Qed.

(** X13: [can_manage_topics] and [can_restrict] make the same decision on
    every update and every answer of the platform: they return the same
    value (or raise the same error), and they leave the same world behind
    (same cache, same clock, same trace, so the same fetch and the same
    call of the wrapped action), except that when both end with their
    reply, each sends its own text. *)
Theorem can_manage_topics_decides_as_can_restrict (update : Update)
    (w : World) :
  let topics := can_manage_topics update w in
  let restrict := can_restrict update w in
  fst topics = fst restrict
  /\ same_but_reply (snd topics) (cant_manage_topics_text update)
       (snd restrict) (cant_restrict_text update).
Proof using Type.
  unfold can_manage_topics, can_restrict, Chat_get_member, same_but_reply.
  step_monad.
  destruct (upstream_get_member (chat_id (effective_chat update)) bot_id)
    as [[x | x rights | x | x | x | x] | e]; simpl;
    try (split; [reflexivity | left; reflexivity]).
  destruct (Rights.can_restrict_members rights); simpl;
    [split; [reflexivity | left; reflexivity] |].
  split; [reflexivity |]. right.
  exists (extend w [EvGetMember (chat_id (effective_chat update)) bot_id]).
  split; reflexivity.
Qed.

(** ** Guards on the tier lists *)

(** X14: [dev_plus] for an update with a sender.  A developer gets the
    wrapped action called.  For anybody else the action is never called:
    when [DEL_CMDS] is on and the command text has no space the message is
    deleted, any failure of the deletion swallowed, and nothing is
    replied; otherwise the developer-only reply is sent.  Either way
    [None] is returned. *)
Theorem dev_plus_decision (update : Update) (u : UserId) (w : World) :
  effective_user update = Some u ->
  (In u DEV_USERS -> dev_plus update w = (Ok RetFunc, extend w [EvFunc]))
  /\ (~ In u DEV_USERS -> DEL_CMDS = true -> bare_command update = true ->
      dev_plus update w = (Ok RetNone, extend w [EvDelete]))
  /\ (~ In u DEV_USERS -> DEL_CMDS && bare_command update = false ->
      dev_plus update w = (Ok RetNone, extend w [EvReply dev_only_text])).
Proof using Type.
  intros Hu. unfold dev_plus, message_delete, try_pass. rewrite Hu.
  split; [| split].
  - intros H. apply contains_In in H. step_monad. now rewrite H.
  - intros H Hd Hb. apply contains_not_In in H. step_monad.
    rewrite H, Hd, Hb. simpl. now destruct upstream_delete.
  - intros H Hdb. apply contains_not_In in H. step_monad.
    now rewrite H, Hdb.
Qed.

(** X15: [sudo_plus] for an update with a sender.  A sender in the sudo
    or developer tier gets the wrapped action called.  For anybody else
    the action is never called: the command is deleted (failures
    swallowed) when [DEL_CMDS] is on and the text has no space, and
    otherwise the sudo-only reply is sent. *)
Theorem sudo_plus_decision (update : Update) (u : UserId) (w : World) :
  effective_user update = Some u ->
  (In u DRAGONS \/ In u DEV_USERS ->
   sudo_plus update w = (Ok RetFunc, extend w [EvFunc]))
  /\ (~ In u DRAGONS -> ~ In u DEV_USERS ->
      DEL_CMDS = true -> bare_command update = true ->
      sudo_plus update w = (Ok RetNone, extend w [EvDelete]))
  /\ (~ In u DRAGONS -> ~ In u DEV_USERS ->
      DEL_CMDS && bare_command update = false ->
      sudo_plus update w = (Ok RetNone, extend w [EvReply sudo_only_text])).
Proof using Type.
  intros Hu. unfold sudo_plus, is_sudo_plus, message_delete, try_pass.
  rewrite Hu. split; [| split].
  - rewrite <- !contains_In, <- orb_true_iff. intros H.
    step_monad. now rewrite H.
  - intros H1 H2 Hd Hb.
    apply contains_not_In in H1. apply contains_not_In in H2.
    step_monad. rewrite H1, H2, Hd, Hb. simpl. now destruct upstream_delete.
  - intros H1 H2 Hdb.
    apply contains_not_In in H1. apply contains_not_In in H2.
    step_monad. now rewrite H1, H2, Hdb.
Qed.

(** X16: [support_plus] never replies.  A sender in the support, sudo or
    developer tier gets the wrapped action called; for any other update,
    one without a sender included, the command is deleted (failures
    swallowed) when [DEL_CMDS] is on and the text has no space, and
    otherwise nothing happens at all. *)
Theorem support_plus_decision (update : Update) (w : World) :
  let accepted :=
    exists u, effective_user update = Some u
              /\ (In u DEMONS \/ In u DRAGONS \/ In u DEV_USERS) in
  (accepted -> support_plus update w = (Ok RetFunc, extend w [EvFunc]))
  /\ (~ accepted -> DEL_CMDS = true -> bare_command update = true ->
      support_plus update w = (Ok RetNone, extend w [EvDelete]))
  /\ (~ accepted -> DEL_CMDS && bare_command update = false ->
      support_plus update w = (Ok RetNone, w)).
Proof using Type.
  clear bot_id upstream_get_member upstream_getChatAdministrators.
  intros accepted.
  assert (Hacc : accepted <->
                 match effective_user update with
                 | Some u => is_support_plus (effective_chat update) u
                 | None => false
                 end = true).
  { unfold accepted, is_support_plus.
    destruct (effective_user update) as [u |].
    - rewrite !orb_true_iff, !contains_In. split.
      + intros (u' & Heq & H). injection Heq as <-. tauto.
      + intros H. exists u. split; [reflexivity | tauto].
    - split; [intros (u' & Heq & _); discriminate Heq | discriminate]. }
  unfold support_plus, message_delete, try_pass.
  destruct (match effective_user update with
            | Some u => is_support_plus (effective_chat update) u
            | None => false
            end) eqn:Hm.
  - split; [reflexivity |].
    split; intros Hn; elim Hn; now apply Hacc.
  - split; [intros Ha; apply Hacc in Ha; discriminate Ha |].
    split.
    + intros _ Hd Hb. step_monad. rewrite Hd, Hb. simpl.
      now destruct upstream_delete.
    + intros _ Hdb. step_monad. now rewrite Hdb.
Qed.

(** X17: [whitelist_plus] never deletes and always answers.  A sender
    found in one of the five tier lists gets the wrapped action called;
    every other update, one without a sender included, gets the
    no-access reply naming the support chat, and [None] is returned. *)
Theorem whitelist_plus_decision (update : Update) (w : World) :
  let accepted :=
    exists u, effective_user update = Some u
              /\ (In u WOLVES \/ In u TIGERS \/ In u DEMONS
                  \/ In u DRAGONS \/ In u DEV_USERS) in
  (accepted -> whitelist_plus update w = (Ok RetFunc, extend w [EvFunc]))
  /\ (~ accepted ->
      whitelist_plus update w
      = (Ok RetNone, extend w [EvReply no_access_text])).
Proof using Type.
  clear bot_id upstream_get_member upstream_getChatAdministrators.
  intros accepted.
  assert (Hacc : accepted <->
                 match effective_user update with
                 | Some u => is_whitelist_plus (effective_chat update) u
                 | None => false
                 end = true).
  { unfold accepted, is_whitelist_plus.
    destruct (effective_user update) as [u |].
    - simpl. rewrite !orb_true_iff, !contains_In. split.
      + intros (u' & Heq & H). injection Heq as <-. tauto.
      + intros H. exists u. split; [reflexivity | intuition discriminate].
    - split; [intros (u' & Heq & _); discriminate Heq | discriminate]. }
  unfold whitelist_plus.
  destruct (match effective_user update with
            | Some u => is_whitelist_plus (effective_chat update) u
            | None => false
            end) eqn:Hm.
  - split; [reflexivity |]. intros Hn. elim Hn. now apply Hacc.
  - split; [intros Ha; apply Hacc in Ha; discriminate Ha |].
    intros _. reflexivity.
Qed.

(** ** Guards through [is_user_admin] *)

Lemma appends_only_ret {A} (P : Event -> bool) (a : A) :
  appends_only P (ret a).
Proof using Type.
  intros w. exists []. simpl. now rewrite app_nil_r.
Qed.

Lemma appends_only_raise {A} (P : Event -> bool) (e : Exn) :
  appends_only P (@raise A e).
Proof using Type.
  intros w. exists []. simpl. now rewrite app_nil_r.
Qed.

Lemma appends_only_lift {A} (P : Event -> bool) (r : Outcome A) :
  appends_only P (lift r).
Proof using Type.
  destruct r; [apply appends_only_ret | apply appends_only_raise].
Qed.

Lemma appends_only_emit (P : Event -> bool) (e : Event) :
  P e = true -> appends_only P (emit e).
Proof using Type.
  intros He w. exists [e]. simpl. now rewrite He.
Qed.

Lemma appends_only_bind {A B} (P : Event -> bool) (m : M A) (k : A -> M B) :
  appends_only P m ->
  (forall a, appends_only P (k a)) ->
  appends_only P (bind m k).
Proof using Type.
  intros Hm Hk w. unfold bind.
  destruct (Hm w) as (evs1 & Ht1 & Hc1 & Hp1).
  destruct (m w) as [[a | e] w1]; simpl in Ht1, Hc1.
  - destruct (Hk a w1) as (evs2 & Ht2 & Hc2 & Hp2).
    exists (evs1 ++ evs2).
    rewrite Ht2, Ht1, Hc2, Hc1, app_assoc, forallb_app, Hp1, Hp2.
    repeat split; reflexivity.
  - exists evs1. simpl. auto.
Qed.

Lemma appends_only_try_pass (P : Event -> bool) (m : M unit) :
  appends_only P m -> appends_only P (try_pass m).
Proof using Type.
  intros Hm w. unfold try_pass.
  destruct (Hm w) as (evs & Ht & Hc & Hp).
  destruct (m w) as [r w1]. simpl in *. now exists evs.
Qed.

Lemma appends_only_getitem (P : Event -> bool) (k : ChatId) :
  P (EvCacheGet k) = true -> appends_only P (ADMIN_CACHE_getitem k).
Proof using Type.
  intros He w. exists [EvCacheGet k]. unfold ADMIN_CACHE_getitem.
  destruct (TTLCache_getitem (clock w) (ADMIN_CACHE w) k). simpl.
  now rewrite He.
Qed.

Lemma appends_only_setitem (P : Event -> bool) (k : ChatId)
    (v : list UserId) :
  P (EvCacheSet k v) = true -> appends_only P (ADMIN_CACHE_setitem k v).
Proof using Type.
  intros He w. exists [EvCacheSet k v]. simpl. now rewrite He.
Qed.

Lemma appends_only_weaken {A} (P Q : Event -> bool) (m : M A) :
  (forall e, P e = true -> Q e = true) ->
  appends_only P m -> appends_only Q m.
Proof using Type.
  intros Himp Hm w. destruct (Hm w) as (evs & Ht & Hc & Hp).
  exists evs. repeat split; try assumption.
  rewrite forallb_forall in *. auto.
Qed.

Ltac appends_only_tac :=
  repeat first
    [ apply appends_only_ret
    | apply appends_only_raise
    | apply appends_only_lift
    | apply appends_only_emit; reflexivity
    | apply appends_only_getitem; reflexivity
    | apply appends_only_setitem; reflexivity
    | apply appends_only_try_pass
    | apply appends_only_bind; [| intros ?; cbv beta]
    | match goal with
      | |- appends_only _ (if ?b then _ else _) => destruct b
      | |- appends_only _ (match ?x with _ => _ end) => destruct x
      end ].

Lemma is_user_admin_resolver_events (chat : Chat) (user_id : UserId)
    (member : option ChatMember) :
  appends_only resolver_event (is_user_admin chat user_id member).
Proof using Type.
  unfold is_user_admin, getChatAdministrators. cbv zeta.
  appends_only_tac.
Qed.

(** X18: the resolver and the guards built on it.  [is_user_admin] only
    reads and writes the cache and fetches the administrator list: it
    sends nothing and never fetches a single member record.  [user_admin]
    adds replies, deletions and the call of the wrapped action;
    [user_admin_no_reply] and [user_not_admin] never reply either.  None
    of them touches the clock. *)
Theorem admin_guards_footprint (update : Update) (chat : Chat)
    (user_id : UserId) (member : option ChatMember) :
  appends_only resolver_event (is_user_admin chat user_id member)
  /\ appends_only admin_guard_event (user_admin update)
  /\ appends_only quiet_admin_guard_event (user_admin_no_reply update)
  /\ appends_only quiet_admin_guard_event (user_not_admin update).
Proof using Type.
  assert (Hres : forall P c u,
             (forall e, resolver_event e = true -> P e = true) ->
             appends_only P (is_user_admin c u None)).
  { intros P c u HP. eapply appends_only_weaken; [exact HP |].
    apply is_user_admin_resolver_events. }
  assert (Hadm : forall e, resolver_event e = true ->
                           admin_guard_event e = true)
    by (intros []; simpl; intros H; try reflexivity; discriminate H).
  assert (Hquiet : forall e, resolver_event e = true ->
                             quiet_admin_guard_event e = true)
    by (intros []; simpl; intros H; try reflexivity; discriminate H).
  split; [apply is_user_admin_resolver_events |].
  split; [| split].
  - unfold user_admin. open_guard.
    apply appends_only_bind; [| intros ?; appends_only_tac].
    apply appends_only_bind; [| intros ?; appends_only_tac].
    destruct (effective_user update); [now apply Hres | appends_only_tac].
  - unfold user_admin_no_reply. open_guard.
    apply appends_only_bind; [| intros ?; appends_only_tac].
    apply appends_only_bind; [| intros ?; appends_only_tac].
    destruct (effective_user update); [now apply Hres | appends_only_tac].
  - unfold user_not_admin. open_guard.
    apply appends_only_bind; [| intros ?; appends_only_tac].
    apply appends_only_bind; [| intros ?; appends_only_tac].
    destruct (effective_user update); [| appends_only_tac].
    apply appends_only_bind; [now apply Hres | intros ?; appends_only_tac].
Qed.

(** X19: [user_admin], [user_admin_no_reply] and [user_not_admin] split on
    the resolver's answer for the sender.  If [is_user_admin] answers
    [True], the first two call the wrapped action and [user_not_admin]
    does nothing; if it answers [False], [user_not_admin] calls the
    wrapped action and the other two return [None] without calling it; if
    it raises, all three raise the same error and none calls the
    action. *)
Theorem user_admin_guards_split (update : Update) (u : UserId) (w : World) :
  effective_user update = Some u ->
  let resolve := is_user_admin (effective_chat update) u None w in
  (forall w', resolve = (Ok true, w') ->
     user_admin update w = (Ok RetFunc, extend w' [EvFunc])
     /\ user_admin_no_reply update w = (Ok RetFunc, extend w' [EvFunc])
     /\ user_not_admin update w = (Ok RetNone, w'))
  /\ (forall w', resolve = (Ok false, w') ->
        user_not_admin update w = (Ok RetFunc, extend w' [EvFunc])
        /\ fst (user_admin update w) = Ok RetNone
        /\ existsb is_EvFunc (trace (snd (user_admin update w)))
           = existsb is_EvFunc (trace w')
        /\ fst (user_admin_no_reply update w) = Ok RetNone
        /\ existsb is_EvFunc (trace (snd (user_admin_no_reply update w)))
           = existsb is_EvFunc (trace w'))
  /\ (forall e w', resolve = (Raise e, w') ->
        user_admin update w = (Raise e, w')
        /\ user_admin_no_reply update w = (Raise e, w')
        /\ user_not_admin update w = (Raise e, w')).
Proof using Type.
  intros Hu resolve. subst resolve.
  unfold user_admin, user_admin_no_reply, user_not_admin, body, bind.
  rewrite Hu. split; [| split].
  - intros w' ->. repeat split; reflexivity.
  - intros w' ->. unfold message_delete, try_pass, bare_command.
    destruct DEL_CMDS, (has_space (message_text (effective_message update))),
      upstream_delete; step_monad;
      rewrite ?existsb_app; simpl; rewrite ?orb_false_r;
      repeat split; reflexivity.
  - intros e w' ->. repeat split; reflexivity.
Qed.

(** X20: [user_admin_no_reply] is [user_admin] without the reply: on every
    update and in every world the two return the same value, leave the
    same cache, and their traces are equal except that [user_admin] may
    end with one more event, the sudo-only reply. *)
Theorem user_admin_no_reply_drops_the_reply (update : Update) (w : World) :
  let loud := user_admin update w in
  let quiet := user_admin_no_reply update w in
  fst quiet = fst loud
  /\ ADMIN_CACHE (snd quiet) = ADMIN_CACHE (snd loud)
  /\ (trace (snd loud) = trace (snd quiet)
      \/ trace (snd loud) = trace (snd quiet) ++ [EvReply sudo_only_text]).
Proof using Type.
  unfold user_admin, user_admin_no_reply, body, bind.
  destruct (effective_user update) as [u |]; [| simpl; auto].
  destruct (is_user_admin (effective_chat update) u None w)
    as [[[|] | e] w']; try (simpl; auto; fail).
  unfold message_delete, try_pass, bare_command.
  destruct DEL_CMDS, (has_space (message_text (effective_message update))),
    upstream_delete; step_monad;
    auto.
Qed.

(** X21: the three guards built on [is_user_admin] keep the admin cache
    within its bound of 512 entries, however they end. *)
Theorem admin_guards_keep_cache_bounded (update : Update) (w : World) :
  cache_bounded w ->
  cache_bounded (snd (user_admin update w))
  /\ cache_bounded (snd (user_admin_no_reply update w))
  /\ cache_bounded (snd (user_not_admin update w)).
Proof using Type.
  intros Hb.
  unfold user_admin, user_admin_no_reply, user_not_admin, body, bind.
  destruct (effective_user update) as [u |]; [| simpl; auto].
  pose proof (is_user_admin_cache_bounded (effective_chat update) u None w Hb)
    as Hb'.
  destruct (is_user_admin (effective_chat update) u None w)
    as [[[|] | e] w']; simpl in Hb'; unfold message_delete, try_pass, bare_command;
    destruct DEL_CMDS, (has_space (message_text (effective_message update))),
      upstream_delete; step_monad;
    repeat split; exact Hb'.
Qed.

(** X22: updates without a sender.  [user_admin], [user_admin_no_reply],
    [user_not_admin] and [sudo_plus] do nothing and return [None];
    [dev_plus] fails on [user.id] with an [AttributeError]; and
    [check_admin] built with [is_user] fails the same way outside a
    private chat, before any of its rules is looked at. *)
Theorem guards_without_sender (permission : option Permission)
    (only_owner only_sudo only_dev : bool) (update : Update) (w : World) :
  effective_user update = None ->
  user_admin update w = (Ok RetNone, w)
  /\ user_admin_no_reply update w = (Ok RetNone, w)
  /\ user_not_admin update w = (Ok RetNone, w)
  /\ sudo_plus update w = (Ok RetNone, w)
  /\ dev_plus update w = (Raise AttributeError, w)
  /\ (is_private (effective_chat update) = false ->
      check_admin permission false true false only_owner only_sudo only_dev
        update w
      = (Raise AttributeError, w)).
Proof using Type.
  intros Hu.
  unfold user_admin, user_admin_no_reply, user_not_admin, sudo_plus,
    dev_plus, check_admin.
  rewrite Hu. repeat split; try reflexivity.
  intros ->. reflexivity.
Qed.

(** X23: the tier guards nest like the tiers.  On any update, if
    [dev_plus] hands back the wrapped action's result then so does
    [sudo_plus]; if [sudo_plus] does then so does [support_plus]; if
    [support_plus] does then so does [whitelist_plus]; and a sender
    [sudo_plus] lets through is let through by [user_admin] at once, with
    no cache lookup and no fetch. *)
Theorem tier_guards_nest (update : Update) (w : World) :
  (fst (dev_plus update w) = Ok RetFunc ->
   fst (sudo_plus update w) = Ok RetFunc)
  /\ (fst (sudo_plus update w) = Ok RetFunc ->
      fst (support_plus update w) = Ok RetFunc)
  /\ (fst (support_plus update w) = Ok RetFunc ->
      fst (whitelist_plus update w) = Ok RetFunc)
  /\ (fst (sudo_plus update w) = Ok RetFunc ->
      user_admin update w = (Ok RetFunc, extend w [EvFunc])).
Proof using Type.
  unfold dev_plus, sudo_plus, support_plus, whitelist_plus, user_admin,
    is_user_admin, is_sudo_plus, is_support_plus, is_whitelist_plus,
    message_delete, try_pass, bare_command.
  destruct (effective_user update) as [u |]; step_monad;
    [| destruct DEL_CMDS,
         (has_space (message_text (effective_message update))),
         upstream_delete; simpl;
       repeat split; intros H; discriminate H].
  destruct (contains u DEV_USERS), (contains u DRAGONS),
    (contains u DEMONS), (contains u TIGERS), (contains u WOLVES),
    DEL_CMDS, (has_space (message_text (effective_message update))),
    upstream_delete, (is_private (effective_chat update));
    simpl; repeat split; intros H; try reflexivity; discriminate H.
Qed.

(** X24: [check_admin(permission=p, is_user=True)] outside a private chat,
    with the sender's record fetched.  The owner of the chat and an
    administrator holding [p] get the wrapped action called; a sender who
    is neither owner nor administrator and is in neither the sudo nor the
    developer tier gets the user-side reply.  The bot's record is not
    fetched. *)
Theorem check_admin_user_capability_grants (p : Permission)
    (update : Update) (u : UserId) (m : ChatMember) (w : World) :
  is_private (effective_chat update) = false ->
  effective_user update = Some u ->
  upstream_get_member (chat_id (effective_chat update)) u = Ok m ->
  let fetch := EvGetMember (chat_id (effective_chat update)) u in
  let r := check_admin (Some p) false true false false false false
             update w in
  (status m = OWNER \/ holds_right m p ->
   r = (Ok RetFunc, extend w [fetch; EvFunc]))
  /\ (status m <> OWNER -> status m <> ADMINISTRATOR ->
      ~ In u DRAGONS -> ~ In u DEV_USERS ->
      r = (Ok (RetMessage (user_lacks_text p)),
           extend w [fetch; EvReply (user_lacks_text p)])).
Proof using Type.
  intros Hp Hu Hup fetch r. subst fetch r.
  unfold check_admin, user_flag_or_dragon, Chat_get_member.
  rewrite Hp, Hu. step_monad. rewrite Hup. simpl. split.
  - intros [Ho | (x & rights & -> & Hf)].
    + destruct m; try discriminate Ho. now norm_trace.
    + simpl. rewrite Hf. now norm_trace.
  - intros Ho Ha Hs _. apply contains_not_In in Hs.
    destruct m; simpl in Ho, Ha |- *; rewrite ?Hs;
      solve [now norm_trace | now elim Ho | now elim Ha].
Qed.

(** X25: a developer passes the tier rules of [check_admin].  Outside a
    private chat, for a guard built with [only_owner] or [only_dev] (and
    none of [is_bot], [is_user], [is_both]), a sender in the developer
    tier gets the wrapped action called at once, whatever the capability
    name and the [only_sudo] flag; nothing is fetched or replied. *)
Theorem check_admin_developer_passes_tier_rules
    (permission : option Permission) (only_owner only_sudo only_dev : bool)
    (update : Update) (u : UserId) (w : World) :
  is_private (effective_chat update) = false ->
  effective_user update = Some u ->
  In u DEV_USERS ->
  only_owner = true \/ only_dev = true ->
  check_admin permission false false false only_owner only_sudo only_dev
    update w
  = (Ok RetFunc, extend w [EvFunc]).
Proof using Type.
  intros Hp Hu Hd Hflag. apply contains_In in Hd.
  unfold check_admin, owner_or_dev. rewrite Hp, Hu. step_monad.
  destruct only_owner; simpl; rewrite ?Hd; [reflexivity |].
  destruct Hflag as [Hf | ->]; [discriminate Hf |].
  simpl. rewrite ?Hd. reflexivity.
Qed.

End ChatStatus.

(** ** The [can_manage_topics] guard *)


(** ** The guards on concrete updates *)

(** C1: the guard with no capability name, built as [check_admin(is_bot=True)],
    run in the sample supergroup where the bot is an administrator and the
    sender, user 3, is an administrator too.  Both tests pass, and the run
    ends there: the two member records are fetched, the wrapped action is
    not called and [None] is returned. *)
Theorem check_admin_plain_admin_not_invoked :
  check_admin sample_DEV_USERS sample_DRAGONS sample_bot_id sample_get_member
    None true false false false false false (sample_update 3) sample_world
  = (Ok RetNone,
     mkWorld [] 0 [EvGetMember (-100) 1; EvGetMember (-100) 3]).
Proof. reflexivity. Qed.

(** The guard built with no argument at all fetches no record and fails
    on the bot's missing one. *)
Example check_admin_default_raises :
  check_admin sample_DEV_USERS sample_DRAGONS sample_bot_id sample_get_member
    None false false false false false false (sample_update 3) sample_world
  = (Raise AttributeError, sample_world).
Proof. reflexivity. Qed.

(** C2: the guard built as [check_admin(only_sudo=True)], run in the sample
    supergroup for user 5, who is in the sudo tier, and for user 9, who is
    in the developer tier: both are turned away with the sudo-only reply
    and the wrapped action is not called. *)
Theorem check_admin_only_sudo_denies_sudo_user :
  contains 5 sample_DRAGONS = true
  /\ contains 9 sample_DEV_USERS = true
  /\ check_admin sample_DEV_USERS sample_DRAGONS sample_bot_id
       sample_get_member None false false false false true false
       (sample_update 5) sample_world
     = (Ok (RetMessage "Who the hell are you to say me what to do?"),
        mkWorld [] 0 [EvReply "Who the hell are you to say me what to do?"])
  /\ check_admin sample_DEV_USERS sample_DRAGONS sample_bot_id
       sample_get_member None false false false false true false
       (sample_update 9) sample_world
     = (Ok (RetMessage "Who the hell are you to say me what to do?"),
        mkWorld [] 0 [EvReply "Who the hell are you to say me what to do?"]).
Proof. repeat split; reflexivity. Qed.

(** C3: the guard built as
    [check_admin(permission="can_delete_messages", is_user=True)], run in
    the sample supergroup.  User 9 is in the developer tier and a plain
    member of the chat: the guard answers with the user-side denial.  User
    5 is in the sudo tier and an administrator without the flag: denied as
    well.  User 6 is in the sudo tier and a plain member: the wrapped
    action is called. *)
Theorem check_admin_user_capability_denies_developer :
  contains 9 sample_DEV_USERS = true
  /\ check_admin sample_DEV_USERS sample_DRAGONS sample_bot_id
       sample_get_member (Some P_can_delete_messages)
       false true false false false false (sample_update 9) sample_world
     = (Ok (RetMessage "You don't have can_delete_messages to do this action."),
        mkWorld [] 0
          [EvGetMember (-100) 9;
           EvReply "You don't have can_delete_messages to do this action."])
  /\ contains 5 sample_DRAGONS = true
  /\ check_admin sample_DEV_USERS sample_DRAGONS sample_bot_id
       sample_get_member (Some P_can_delete_messages)
       false true false false false false (sample_update 5) sample_world
     = (Ok (RetMessage "You don't have can_delete_messages to do this action."),
        mkWorld [] 0
          [EvGetMember (-100) 5;
           EvReply "You don't have can_delete_messages to do this action."])
  /\ check_admin sample_DEV_USERS sample_DRAGONS sample_bot_id
       sample_get_member (Some P_can_delete_messages)
       false true false false false false (sample_update 6) sample_world
     = (Ok RetFunc, mkWorld [] 0 [EvGetMember (-100) 6; EvFunc]).
Proof. repeat split; reflexivity. Qed.

(** C6: the guard built as
    [check_admin(permission="can_delete_messages", is_user=True, only_dev=True)],
    run in the sample supergroup for user 2, the owner of the chat, who is
    not in the developer tier: the dev-only reply is sent, the capability
    rule is evaluated next, and the wrapped action is called.  Built as
    [check_admin(only_dev=True)] and run for user 3, the guard sends the
    dev-only reply and goes on to the plain admin check, which fails on the
    bot's missing record. *)
Theorem check_admin_only_dev_denial_falls_through :
  contains 2 sample_DEV_USERS = false
  /\ check_admin sample_DEV_USERS sample_DRAGONS sample_bot_id
       sample_get_member (Some P_can_delete_messages)
       false true false false false true (sample_update 2) sample_world
     = (Ok RetFunc,
        mkWorld [] 0
          [EvGetMember (-100) 2;
           EvReply "This is a developer restricted command. You do not have permissions to run this.";
           EvFunc])
  /\ contains 3 sample_DEV_USERS = false
  /\ check_admin sample_DEV_USERS sample_DRAGONS sample_bot_id
       sample_get_member None
       false false false false false true (sample_update 3) sample_world
     = (Raise AttributeError,
        mkWorld [] 0
          [EvReply "This is a developer restricted command. You do not have permissions to run this."]).
Proof. repeat split; reflexivity. Qed.

(** A developer is let through by the [only_dev] rule at once. *)
Example check_admin_only_dev_allows_developer :
  check_admin sample_DEV_USERS sample_DRAGONS sample_bot_id sample_get_member
    None false false false false false true (sample_update 9) sample_world
  = (Ok RetFunc, mkWorld [] 0 [EvFunc]).
Proof. reflexivity. Qed.

(** In a cache of two entries a hit makes its entry the most recently used,
    so the next new chat evicts the other one. *)
Example TTLCache_hit_refreshes_recency :
  let c := TTLCache_setitem 2 600 0 (TTLCache_setitem 2 600 0 [] 1 [10]) 2 [20] in
  map entry_key c = [1; 2]
  /\ map entry_key (TTLCache_setitem 2 600 5 c 3 [30]) = [2; 3]
  /\ map entry_key
       (TTLCache_setitem 2 600 5 (snd (TTLCache_getitem 5 c 1)) 3 [30])
     = [1; 3].
Proof. repeat split; reflexivity. Qed.

(** C7 as stated fails for the platform pseudo-user 777000: in the sample
    supergroup, in none of the four tiers and with a plain member's record
    supplied, the direct status check is false and yet the answer is
    [True]. *)
Lemma is_user_ban_protected_pseudo_user_protected :
  is_private sample_group = false
  /\ contains 777000 sample_DEV_USERS = false
  /\ contains 777000 sample_DRAGONS = false
  /\ contains 777000 [11] = false
  /\ contains 777000 [12] = false
  /\ status_in (status (ChatMemberMember 777000)) [ADMINISTRATOR; OWNER] = false
  /\ is_user_ban_protected sample_DEV_USERS sample_DRAGONS [12] [11]
       sample_get_member sample_group 777000
       (Some (ChatMemberMember 777000)) sample_world
     = (Ok true, sample_world).
Proof. repeat split; reflexivity. Qed.

(** ** The theorems at concrete inputs *)

Lemma is_user_admin_privileged_always_true_witness :
  In 9 sample_DEV_USERS
  /\ is_user_admin sample_DEV_USERS sample_DRAGONS
       failing_getChatAdministrators sample_group 9 None sample_world
     = (Ok true, sample_world).
Proof.
  assert (H : In 9 sample_DEV_USERS) by (simpl; auto).
  split; [exact H |].
  apply is_user_admin_privileged_always_true. left. exact H.
Defined.

Lemma user_admin_fetch_failure_fails_closed_witness :
  user_admin true sample_DEV_USERS sample_DRAGONS
    failing_getChatAdministrators (Ok tt) (sample_update 3) sample_world
  = (Raise TelegramError,
     mkWorld [] 0 [EvCacheGet (-100); EvGetChatAdministrators (-100)]).
Proof.
  pose proof (user_admin_fetch_failure_fails_closed true sample_DEV_USERS
                sample_DRAGONS failing_getChatAdministrators (Ok tt)
                (sample_update 3) 3 TelegramError sample_world
                eq_refl eq_refl eq_refl eq_refl eq_refl) as H.
  simpl in H. destruct H as (_ & H & _). exact H.
Defined.

Lemma is_user_in_chat_iff_left_or_restricted_witness :
  exists b : bool,
    is_user_in_chat sample_get_member sample_group 7 sample_world
    = (Ok b, mkWorld [] 0 [EvGetMember (-100) 7])
    /\ (b = true <->
        status (ChatMemberLeft 7) = LEFT
        \/ status (ChatMemberLeft 7) = RESTRICTED)
    /\ (status (ChatMemberLeft 7) = MEMBER
        \/ status (ChatMemberLeft 7) = ADMINISTRATOR
        \/ status (ChatMemberLeft 7) = OWNER -> b = false).
Proof.
  exact (is_user_in_chat_iff_left_or_restricted sample_get_member
           sample_group 7 (ChatMemberLeft 7) sample_world eq_refl).
Defined.

Lemma is_user_ban_protected_amended_witness :
  is_user_ban_protected sample_DEV_USERS sample_DRAGONS [12] [11]
    sample_get_member sample_group 777000
    (Some (ChatMemberMember 777000)) sample_world
  = (Ok true, sample_world)
  /\ exists b : bool,
       is_user_ban_protected sample_DEV_USERS sample_DRAGONS [12] [11]
         sample_get_member sample_group 3 None sample_world
       = (Ok b, mkWorld [] 0 [EvGetMember (-100) 3])
       /\ (b = true <->
           status (ChatMemberAdministrator 3 no_rights) = ADMINISTRATOR
           \/ status (ChatMemberAdministrator 3 no_rights) = OWNER).
Proof.
  split.
  - apply (is_user_ban_protected_amended sample_DEV_USERS sample_DRAGONS
             [12] [11] sample_get_member sample_group 777000
             (Some (ChatMemberMember 777000)) sample_world).
    do 5 right. left. reflexivity.
  - destruct (is_user_ban_protected_amended sample_DEV_USERS sample_DRAGONS
                [12] [11] sample_get_member sample_group 3 None sample_world)
      as (_ & _ & H & _).
    apply H; [| reflexivity | reflexivity].
    simpl. intuition discriminate.
Defined.


Lemma admin_cache_policy_witness :
  cache_bounded full_world
  /\ fst (is_user_admin sample_DEV_USERS sample_DRAGONS
            sample_getChatAdministrators sample_group 3 None full_world)
     = Ok true
  /\ ADMIN_CACHE
       (snd (is_user_admin sample_DEV_USERS sample_DRAGONS
               sample_getChatAdministrators sample_group 3 None full_world))
     = tl full_cache ++ [mkEntry (-100) 600 [2; 3; 5; 1]]
  /\ ADMIN_CACHE
       (snd (is_user_admin sample_DEV_USERS sample_DRAGONS
               sample_getChatAdministrators sample_group 3 None
               (snd (is_user_admin sample_DEV_USERS sample_DRAGONS
                       sample_getChatAdministrators
                       (mkChat 1 SUPERGROUP "") 3 None full_world))))
     = tl (tl full_cache)
       ++ [mkEntry 1 1000 []; mkEntry (-100) 600 [2; 3; 5; 1]].
Proof.
  assert (Hbound : cache_bounded full_world).
  { unfold cache_bounded. vm_compute. intros H. discriminate H. }
  assert (Hmiss : fst (TTLCache_getitem (clock full_world)
                         (ADMIN_CACHE full_world) (chat_id sample_group))
                  = None)
    by (vm_compute; reflexivity).
  pose proof (admin_cache_policy sample_DEV_USERS sample_DRAGONS
                sample_getChatAdministrators sample_group 3
                [ChatMemberOwner 2; ChatMemberAdministrator 3 no_rights;
                 ChatMemberAdministrator 5 no_rights;
                 ChatMemberAdministrator 1 all_rights]
                full_world Hbound eq_refl eq_refl Hmiss eq_refl) as H.
  cbv zeta in H.
  destruct H as (Hans & _ & _ & _ & _ & Hlru & _ & _ & _ & Hused & _).
  split; [exact Hbound |].
  split; [exact Hans |].
  split.
  - apply (Hlru (mkEntry 1 1000 []) (tl full_cache));
      vm_compute; reflexivity.
  - assert (Hfull : Z.of_nat (List.length (ADMIN_CACHE full_world)) = 512)
      by (vm_compute; reflexivity).
    assert (Hlive : forallb (entry_live (clock full_world))
                      (ADMIN_CACHE full_world) = true)
      by (vm_compute; reflexivity).
    assert (Hrest : existsb (entry_for (chat_id (mkChat 1 SUPERGROUP "")))
                      (mkEntry 2 1000 [] :: tl (tl full_cache)) = false)
      by (vm_compute; reflexivity).
    exact (proj2 (proj2
             (Hused (mkEntry 1 1000 []) (mkEntry 2 1000 [])
                (tl (tl full_cache)) (mkChat 1 SUPERGROUP "") 3
                eq_refl Hfull Hlive eq_refl Hrest eq_refl eq_refl))).
Defined.


(** ** The further theorems at concrete inputs *)

Lemma check_admin_private_chat_bypass_witness :
  check_admin sample_DEV_USERS sample_DRAGONS sample_bot_id sample_get_member
    (Some P_can_delete_messages) true false false true false true
    (sample_private_update 4) sample_world
  = (Ok RetFunc, extend sample_world [EvFunc]).
Proof.
  apply check_admin_private_chat_bypass. reflexivity.
Defined.

Lemma check_admin_only_owner_decision_witness :
  check_admin sample_DEV_USERS sample_DRAGONS sample_bot_id sample_get_member
    None false true false true false false (sample_update 2) sample_world
  = (Ok RetFunc, extend sample_world [EvGetMember (-100) 2; EvFunc]).
Proof.
  pose proof (check_admin_only_owner_decision sample_DEV_USERS sample_DRAGONS
                sample_bot_id sample_get_member None false false
                (sample_update 2) 2 (ChatMemberOwner 2) sample_world
                eq_refl eq_refl eq_refl) as H.
  cbv zeta in H. destruct H as [H _]. apply H. left. reflexivity.
Defined.

Lemma check_admin_only_owner_without_record_witness :
  sample_get_member (-100) 2 = Ok (ChatMemberOwner 2)
  /\ check_admin sample_DEV_USERS sample_DRAGONS sample_bot_id
       sample_get_member None false false false true false false
       (sample_update 2) sample_world
     = (Ok (RetMessage "Only chat owner can perform this action."),
        extend sample_world
          [EvReply "Only chat owner can perform this action."]).
Proof.
  split; [reflexivity |].
  pose proof (check_admin_only_owner_without_record sample_DEV_USERS
                sample_DRAGONS sample_bot_id sample_get_member None false
                false (sample_update 2) 2 sample_world eq_refl eq_refl) as H.
  cbv zeta in H. destruct H as [_ H]. apply H.
  simpl. intuition discriminate.
Defined.

Lemma check_admin_bot_capability_decision_witness :
  check_admin sample_DEV_USERS sample_DRAGONS sample_bot_id sample_get_member
    (Some P_can_pin_messages) true false false false false false
    (sample_update 4) sample_world
  = (Ok RetFunc,
     extend sample_world
       [EvGetMember (-100) 1; EvGetMember (-100) 4; EvFunc]).
Proof.
  pose proof (check_admin_bot_capability_decision sample_DEV_USERS
                sample_DRAGONS sample_bot_id sample_get_member
                P_can_pin_messages false false (sample_update 4) 4
                (ChatMemberAdministrator 1 all_rights) (ChatMemberMember 4)
                sample_world eq_refl eq_refl eq_refl eq_refl) as H.
  cbv zeta in H. destruct H as [H _]. apply H.
  exists 1, all_rights. split; reflexivity.
Defined.

Lemma check_admin_both_capability_decision_witness :
  sample_get_member (-100) 2 = Ok (ChatMemberOwner 2)
  /\ check_admin sample_DEV_USERS sample_DRAGONS sample_bot_id
       sample_get_member (Some P_can_pin_messages)
       false false true false false false (sample_update 2) sample_world
     = (Ok (RetMessage "You don't have can_pin_messages to do this action."),
        extend sample_world
          [EvGetMember (-100) 1;
           EvReply "You don't have can_pin_messages to do this action."]).
Proof.
  split; [reflexivity |].
  pose proof (check_admin_both_capability_decision sample_DEV_USERS
                sample_DRAGONS sample_bot_id sample_get_member
                P_can_pin_messages (sample_update 2) 2
                (ChatMemberAdministrator 1 all_rights) sample_world
                eq_refl eq_refl eq_refl) as H.
  cbv zeta in H. destruct H as (_ & _ & H). apply H.
  - exists 1, all_rights. split; reflexivity.
  - simpl. intuition discriminate.
  - simpl. intuition discriminate.
Defined.

Lemma check_admin_user_capability_grants_witness :
  check_admin sample_DEV_USERS sample_DRAGONS sample_bot_id sample_get_member
    (Some P_can_pin_messages) false true false false false false
    (sample_update 2) sample_world
  = (Ok RetFunc, extend sample_world [EvGetMember (-100) 2; EvFunc]).
Proof.
  pose proof (check_admin_user_capability_grants sample_DEV_USERS
                sample_DRAGONS sample_bot_id sample_get_member
                P_can_pin_messages (sample_update 2) 2 (ChatMemberOwner 2)
                sample_world eq_refl eq_refl eq_refl) as H.
  cbv zeta in H. destruct H as [H _]. apply H. left. reflexivity.
Defined.

Lemma check_admin_developer_passes_tier_rules_witness :
  check_admin sample_DEV_USERS sample_DRAGONS sample_bot_id sample_get_member
    (Some P_can_pin_messages) false false false false true true
    (sample_update 9) sample_world
  = (Ok RetFunc, extend sample_world [EvFunc]).
Proof.
  apply check_admin_developer_passes_tier_rules with (u := 9);
    [reflexivity | reflexivity | simpl; auto | right; reflexivity].
Defined.

Lemma bot_can_delete_decision_witness :
  bot_can_delete 2 sample_get_member (sample_update 4) sample_world
  = (Ok RetNone,
     extend sample_world
       [EvGetMember (-100) 2;
        EvReply (cant_delete_text (sample_update 4))]).
Proof.
  pose proof (bot_can_delete_decision 2 sample_get_member (sample_update 4)
                (ChatMemberOwner 2) sample_world eq_refl) as H.
  cbv zeta in H. destruct H as [_ H]. apply H.
  intros (x & rights & Heq & _). discriminate Heq.
Defined.

Lemma bot_right_guards_decision_witness :
  can_restrict sample_bot_id sample_get_member (sample_update 4) sample_world
  = (Ok RetFunc, extend sample_world [EvGetMember (-100) 1; EvFunc])
  /\ can_pin 2 sample_get_member (sample_update 4) sample_world
     = (Ok RetNone, extend sample_world [EvGetMember (-100) 2]).
Proof.
  split.
  - pose proof (bot_right_guards_decision sample_bot_id sample_get_member
                  (sample_update 4) (ChatMemberAdministrator 1 all_rights)
                  sample_world eq_refl) as H.
    cbv zeta beta in H. destruct H as (_ & _ & H & _). apply H.
    exists 1, all_rights. split; reflexivity.
  - pose proof (bot_right_guards_decision 2 sample_get_member
                  (sample_update 4) (ChatMemberOwner 2)
                  sample_world eq_refl) as H.
    cbv zeta beta in H. destruct H as ((_ & _ & H) & _). apply H.
    discriminate.
Defined.

Lemma dev_plus_decision_witness :
  dev_plus true sample_DEV_USERS failing_delete (sample_update 4)
    sample_world
  = (Ok RetNone, extend sample_world [EvDelete]).
Proof.
  pose proof (dev_plus_decision true sample_DEV_USERS failing_delete
                (sample_update 4) 4 sample_world eq_refl) as H.
  destruct H as (_ & H & _). apply H;
    [simpl; intuition discriminate | reflexivity | reflexivity].
Defined.

Lemma sudo_plus_decision_witness :
  sudo_plus false sample_DEV_USERS sample_DRAGONS failing_delete
    (sample_update 4) sample_world
  = (Ok RetNone,
     extend sample_world
       [EvReply "Who the hell are you to say me what to do?"]).
Proof.
  pose proof (sudo_plus_decision false sample_DEV_USERS sample_DRAGONS
                failing_delete (sample_update 4) 4 sample_world eq_refl)
    as H.
  destruct H as (_ & _ & H). apply H;
    [simpl; intuition discriminate | simpl; intuition discriminate
    | reflexivity].
Defined.

Lemma user_admin_guards_split_witness :
  user_not_admin sample_DEV_USERS sample_DRAGONS
    sample_getChatAdministrators (sample_update 4) sample_world
  = (Ok RetFunc,
     mkWorld [mkEntry (-100) 600 [2; 3; 5; 1]] 0
       [EvCacheGet (-100); EvGetChatAdministrators (-100);
        EvCacheSet (-100) [2; 3; 5; 1]; EvFunc]).
Proof.
  pose proof (user_admin_guards_split true sample_DEV_USERS sample_DRAGONS
                sample_getChatAdministrators failing_delete
                (sample_update 4) 4 sample_world eq_refl) as H.
  cbv zeta in H. destruct H as (_ & H & _).
  destruct (H (mkWorld [mkEntry (-100) 600 [2; 3; 5; 1]] 0
                 [EvCacheGet (-100); EvGetChatAdministrators (-100);
                  EvCacheSet (-100) [2; 3; 5; 1]]) eq_refl) as (H1 & _).
  exact H1.
Defined.

Lemma admin_guards_keep_cache_bounded_witness :
  cache_bounded
    (snd (user_admin true sample_DEV_USERS sample_DRAGONS
            sample_getChatAdministrators failing_delete (sample_update 4)
            full_world)).
Proof.
  assert (Hbound : cache_bounded full_world).
  { unfold cache_bounded. vm_compute. intros H. discriminate H. }
  exact (proj1 (admin_guards_keep_cache_bounded true sample_DEV_USERS
                  sample_DRAGONS sample_getChatAdministrators failing_delete
                  (sample_update 4) full_world Hbound)).
Defined.

Lemma guards_without_sender_witness :
  dev_plus true sample_DEV_USERS failing_delete senderless_update
    sample_world
  = (Raise AttributeError, sample_world)
  /\ sudo_plus true sample_DEV_USERS sample_DRAGONS failing_delete
       senderless_update sample_world
     = (Ok RetNone, sample_world).
Proof.
  pose proof (guards_without_sender true sample_DEV_USERS sample_DRAGONS
                sample_bot_id sample_get_member sample_getChatAdministrators
                failing_delete None false false false senderless_update
                sample_world eq_refl) as H.
  destruct H as (_ & _ & _ & Hs & Hd & _). split; assumption.
Defined.
